(** * GPflow: analytic expectations (gpflow/expectations/misc.py) and the
      HMC sampling helper (gpflow/optimizers/mcmc.py)

    A shallow embedding of the two modules.  Tensors are nested lists over
    an abstract scalar type; raising an exception is an explicit outcome;
    the mutable TensorFlow variables of the sampling helper are a store
    passed explicitly. *)

From Stdlib Require Import List Arith Bool Lia ZArith.
Import ListNotations.

Set Implicit Arguments.

(** ** Scalars

    The entries of a tensor.  Only the operations the two modules use are
    required, and no algebraic law is assumed of them: every equation
    proved below holds for any arithmetic, rounding included, as long as
    sums are accumulated in index order. *)
Class Scalar (R : Type) : Type := {
  radd : R -> R -> R;
  rmul : R -> R -> R;
  rzero : R
}.

#[global] Instance Z_Scalar : Scalar Z := {
  radd := Z.add;
  rmul := Z.mul;
  rzero := 0%Z
}.

(** ** Outcomes

    A Python call returns a value or raises.  [OutOfFuel] is the answer of
    a bounded evaluation whose recursion budget is used up; it stands for a
    call that has not returned yet. *)
Inductive error : Type :=
| NotImplementedError
| ValueError
| NoMatchingRule
| ShapeMismatch
| IndexError
| TypeError.

Inductive outcome (A : Type) : Type :=
| Ret (a : A)
| Raise (e : error)
| OutOfFuel.

Arguments Ret {A} a.
Arguments Raise {A} e.
Arguments OutOfFuel {A}.

Definition bind {A B : Type} (m : outcome A) (k : A -> outcome B) : outcome B :=
  match m with
  | Ret a => k a
  | Raise e => Raise e
  | OutOfFuel => OutOfFuel
  end.

Notation "x <- m ;; k" := (bind m (fun x => k))
  (at level 61, m at next level, right associativity).

(** ** Tensors

    A rank-k tensor is a k-fold nested list, outermost axis first.  A
    nested list cannot record the size of an axis that lies under an empty
    one, so the shape lemmas below ask for axes of positive size. *)
Abbreviation vec R := (list R) (only parsing).
Abbreviation mat R := (list (list R)) (only parsing).
Abbreviation ten3 R := (list (list (list R))) (only parsing).
Abbreviation ten4 R := (list (list (list (list R)))) (only parsing).

Section Tensors.
Context {R : Type} {SR : Scalar R}.


(** What an expectation returns: a tensor of rank one, two or three. *)
Inductive tensor : Type :=
| T1 (v : vec R)
| T2 (m : mat R)
| T3 (a : ten3 R).

Definition get2 (m : mat R) (i j : nat) : R := nth j (nth i m []) rzero.
Definition get3 (a : ten3 R) (i j k : nat) : R := nth k (nth j (nth i a []) []) rzero.

(** [t.shape[1]] of a matrix and the shape of a rank-3 tensor. *)
Definition ncols (m : mat R) : nat := length (hd [] m).
Definition shape3 (a : ten3 R) : nat * nat * nat :=
  (length a, length (hd [] a), length (hd [] (hd [] a))).

Definition tabulate2 (n1 n2 : nat) (f : nat -> nat -> R) : mat R :=
  map (fun i => map (fun j => f i j) (seq 0 n2)) (seq 0 n1).
Definition tabulate3 (n1 n2 n3 : nat) (f : nat -> nat -> nat -> R) : ten3 R :=
  map (fun i => tabulate2 n2 n3 (f i)) (seq 0 n1).

(** Rectangular tensors of a given shape. *)
Definition has_shape2 (n1 n2 : nat) (m : mat R) : Prop :=
  length m = n1 /\ Forall (fun r => length r = n2) m.
Definition has_shape3 (n1 n2 n3 : nat) (a : ten3 R) : Prop :=
  length a = n1 /\ Forall (has_shape2 n2 n3) a.

(** Matrix transposition: entry (j, i) of the result is entry (i, j). *)
Definition transpose (m : mat R) : mat R :=
  map (fun j => map (fun r => nth j r rzero) m) (seq 0 (ncols m)).

(** [tf.linalg.adjoint]: the transpose of the last two axes (the entries
    are real).  TensorFlow refuses a tensor of rank below two. *)
Definition adjoint (t : tensor) : outcome tensor :=
  match t with
  | T1 _ => Raise ShapeMismatch
  | T2 m => Ret (T2 (transpose m))
  | T3 a => Ret (T3 (map transpose a))
  end.

(** [tf.linalg.diag] on the last axis: a vector becomes the square matrix
    with that diagonal and zeros elsewhere; a matrix is a batch of
    vectors. *)
Definition diag (v : vec R) : mat R :=
  tabulate2 (length v) (length v)
    (fun i j => if i =? j then nth i v rzero else rzero).
Definition batch_diag (m : mat R) : ten3 R := map diag m.

(** Sums are accumulated from the left, starting from zero. *)
Definition dot (u v : vec R) : R :=
  fold_left radd (map (fun ab => rmul (fst ab) (snd ab)) (combine u v)) rzero.
Definition sum_upto (n : nat) (f : nat -> R) : R :=
  fold_left radd (map f (seq 0 n)) rzero.

Definition column (j : nat) (m : mat R) : vec R := map (fun r => nth j r rzero) m.
Definition mat_mul (x y : mat R) : mat R :=
  map (fun xr => map (fun j => dot xr (column j y)) (seq 0 (ncols y))) x.

(** [tf.tile(a[None, :, :], (n, 1, 1))]. *)
Definition tile0 (n : nat) (a : mat R) : ten3 R := repeat a n.

(** [tf.linalg.matmul(x, y, transpose_a=True)] on two rank-3 tensors with
    the same batch size: per batch entry, the transpose of [x] times [y].
    The contracted axis is the row axis of both. *)
Fixpoint matmul_transpose_a (x y : ten3 R) : outcome (ten3 R) :=
  match x, y with
  | [], [] => Ret []
  | xn :: x', yn :: y' =>
      if length xn =? length yn
      then r <- matmul_transpose_a x' y' ;; Ret (mat_mul (transpose xn) yn :: r)
      else Raise ShapeMismatch
  | _, _ => Raise ShapeMismatch
  end.

(** NumPy-style broadcasting of an elementwise operation on two rank-3
    tensors: along each axis the sizes agree or one of them is 1. *)
Definition bdim (d1 d2 : nat) : option nat :=
  if d1 =? d2 then Some d1
  else if d1 =? 1 then Some d2
  else if d2 =? 1 then Some d1
  else None.
Definition bix (d i : nat) : nat := if d =? 1 then 0 else i.

Definition broadcast3 (op : R -> R -> R) (a b : ten3 R) : outcome (ten3 R) :=
  let '(a1, a2, a3) := shape3 a in
  let '(b1, b2, b3) := shape3 b in
  match bdim a1 b1, bdim a2 b2, bdim a3 b3 with
  | Some n1, Some n2, Some n3 =>
      Ret (tabulate3 n1 n2 n3 (fun i j k =>
             op (get3 a (bix a1 i) (bix a2 j) (bix a3 k))
                (get3 b (bix b1 i) (bix b2 j) (bix b3 k))))
  | _, _, _ => Raise ShapeMismatch
  end.

(** Inserting axes of size one: [b[None, :, None]], [e[:, None, :]] and
    [c[..., None]]. *)
Definition expand_vec_0_2 (b : vec R) : ten3 R := [map (fun x => [x]) b].
Definition expand_mat_1 (e : mat R) : ten3 R := map (fun r => [r]) e.
Definition expand_mat_2 (c : mat R) : ten3 R := map (map (fun x => [x])) c.

(** Slices along the first axis: [t[:-1]] and [t[1:]]. *)
Definition drop_last {A : Type} (l : list A) : list A := removelast l.
Definition drop_first {A : Type} (l : list A) : list A := tl l.

End Tensors.

Arguments tensor R : clear implicits.

(** * The expectation rules of gpflow/expectations/misc.py *)

(** ** Runtime classes

    Modelled from the spec: the class hierarchies of mean functions,
    kernels, inducing features and distributions live in modules that the
    rules only import.  The spec and the docstring of the recursion guard
    give what dispatch needs: [Identity] is a subclass of the [Linear]
    mean function, the [Linear] kernel is one kernel class among others,
    [InducingPoints] is an inducing feature, and everything is an
    [object]. *)
Inductive cls : Type :=
| Cobject
| CNoneType
| CGaussian
| CDiagonalGaussian
| CMarkovGaussian
| CMeanFunction
| Cmfn_Linear
| Cmfn_Identity
| Cmfn_Constant
| CMeanOther (n : nat)
| CKernel
| Ckernels_Linear
| CKernelOther (n : nat)
| CInducingFeature
| CInducingPoints
| CFeatureOther (n : nat).

Definition cls_eqb (c d : cls) : bool :=
  match c, d with
  | Cobject, Cobject | CNoneType, CNoneType
  | CGaussian, CGaussian | CDiagonalGaussian, CDiagonalGaussian
  | CMarkovGaussian, CMarkovGaussian
  | CMeanFunction, CMeanFunction | Cmfn_Linear, Cmfn_Linear
  | Cmfn_Identity, Cmfn_Identity | Cmfn_Constant, Cmfn_Constant
  | CKernel, CKernel | Ckernels_Linear, Ckernels_Linear
  | CInducingFeature, CInducingFeature
  | CInducingPoints, CInducingPoints => true
  | CMeanOther n, CMeanOther m => n =? m
  | CKernelOther n, CKernelOther m => n =? m
  | CFeatureOther n, CFeatureOther m => n =? m
  | _, _ => false
  end.

(** The direct base class. *)
Definition parent (c : cls) : option cls :=
  match c with
  | Cobject => None
  | Cmfn_Identity => Some Cmfn_Linear
  | Cmfn_Linear | Cmfn_Constant | CMeanOther _ => Some CMeanFunction
  | Ckernels_Linear | CKernelOther _ => Some CKernel
  | CInducingPoints | CFeatureOther _ => Some CInducingFeature
  | _ => Some Cobject
  end.

Fixpoint ancestors (depth : nat) (c : cls) : list cls :=
  c :: match depth, parent c with
       | S d, Some p => ancestors d p
       | _, _ => []
       end.

(** [issubclass(c, d)]; no class lies more than four steps below
    [object]. *)
Definition issubclass (c d : cls) : bool := existsb (cls_eqb d) (ancestors 4 c).

Section Rules.
Context {R : Type} {SR : Scalar R}.

(** ** Runtime objects: the operators and features of a term *)
Inductive pyobj : Type :=
| PyNone
| MeanIdentity (input_dim : nat)
| MeanLinear (A : mat R) (b : vec R)
| MeanConstant (c : vec R)
| MeanOther (n id : nat)
| KernLinear (id : nat)
| KernOther (n id : nat)
| FeatInducingPoints (Z : mat R)
| FeatOther (n id : nat).

Definition type_of (o : pyobj) : cls :=
  match o with
  | PyNone => CNoneType
  | MeanIdentity _ => Cmfn_Identity
  | MeanLinear _ _ => Cmfn_Linear
  | MeanConstant _ => Cmfn_Constant
  | MeanOther n _ => CMeanOther n
  | KernLinear _ => Ckernels_Linear
  | KernOther n _ => CKernelOther n
  | FeatInducingPoints _ => CInducingPoints
  | FeatOther n _ => CFeatureOther n
  end.

Definition is_None (o : pyobj) : bool :=
  match o with PyNone => true | _ => false end.

(** ** Distributions: a mean and a covariance array

    [Gaussian]: mean N x D, covariance N x D x D.  [DiagonalGaussian]:
    mean and variances N x D.  [MarkovGaussian]: mean (N+1) x D and
    covariance blocks 2 x (N+1) x D x D. *)
Inductive dist : Type :=
| Gaussian (mu : mat R) (cov : ten3 R)
| DiagonalGaussian (mu : mat R) (cov : mat R)
| MarkovGaussian (mu : mat R) (cov : ten4 R).

Definition dist_mu (p : dist) : mat R :=
  match p with
  | Gaussian mu _ | DiagonalGaussian mu _ | MarkovGaussian mu _ => mu
  end.

Definition type_of_dist (p : dist) : cls :=
  match p with
  | Gaussian _ _ => CGaussian
  | DiagonalGaussian _ _ => CDiagonalGaussian
  | MarkovGaussian _ _ => CMarkovGaussian
  end.

(** ** Terms

    [expectation] takes each term as a pair [(operator, feature)] or as a
    bare operator; the second term and [nghp] default to [None]. *)
Inductive term : Type :=
| Bare (o : pyobj)
| Pair (o f : pyobj).

Definition absent : term := Bare PyNone.

(** The entry point of the dispatcher, as the rules call it:
    [expectation(p, obj1, obj2, nghp)]. *)
Definition expect_fn : Type := dist -> term -> term -> option nat -> outcome (tensor R).

(** A rule: the function under [@expectation_dispatch], with the
    [expectation] it imports from the dispatch module as its first
    argument. *)
Definition rule : Type :=
  expect_fn -> dist -> pyobj -> pyobj -> pyobj -> pyobj -> option nat -> outcome (tensor R).

(** Modelled from the spec: calling a mean function on the inputs (the
    classes are not among the sources).  A [Constant] returns its vector
    for every row of the input. *)
Definition mean_call (m : pyobj) (X : mat R) : outcome (mat R) :=
  match m with
  | MeanConstant c => Ret (repeat c (length X))
  | _ => Raise TypeError
  end.

(** The attributes [A] and [b] of a [Linear] mean function.  The sources
    do not give those of its subclass [Identity]; the recursion guard
    keeps an [Identity] away from the one rule that reads them. *)
Definition attr_A (m : pyobj) : outcome (mat R) :=
  match m with MeanLinear A _ => Ret A | _ => Raise TypeError end.
Definition attr_b (m : pyobj) : outcome (vec R) :=
  match m with MeanLinear _ b => Ret b | _ => Raise TypeError end.

(** [p.cov[0]] of a Markov covariance array. *)
Definition index0 {A : Type} (l : list A) : outcome A :=
  match l with
  | [] => Raise IndexError
  | x :: _ => Ret x
  end.

(** *** misc.py, lines 16-27: <x_n K_{x_n, Z}> for the Linear kernel *)
Definition _E_Identity_kLinear : rule :=
  fun expectation p mean _ kernel feature nghp =>
    t <- expectation p (Pair kernel feature) (Bare mean) None ;;
    adjoint t.

(** *** misc.py, lines 30-40: <K_{Z, x_n} m(x_n)> *)
Definition _E_Kernel_MeanFunction : rule :=
  fun expectation p kernel feature mean _ nghp =>
    t <- expectation p (Bare mean) (Pair kernel feature) nghp ;;
    adjoint t.

(** *** misc.py, lines 43-57: constant mean function *)
Definition _E_Constant_Kernel : rule :=
  fun expectation p constant_mean _ kernel feature nghp =>
    c <- mean_call constant_mean (dist_mu p) ;;
    eKxz <- expectation p (Pair kernel feature) absent nghp ;;
    match eKxz with
    | T2 e =>
        r <- broadcast3 rmul (expand_mat_2 c) (expand_mat_1 e) ;;
        Ret (T3 r)
    | _ => Raise ShapeMismatch
    end.

(** *** misc.py, lines 60-78: linear mean function *)
Definition _E_Linear_Kernel : rule :=
  fun expectation p linear_mean _ kernel feature nghp =>
    let N := length (dist_mu p) in
    let D := ncols (dist_mu p) in
    exKxz <- expectation p (Bare (MeanIdentity D)) (Pair kernel feature) nghp ;;
    eKxz <- expectation p (Pair kernel feature) absent nghp ;;
    A <- attr_A linear_mean ;;
    match exKxz with
    | T3 ex =>
        eAxKxz <- matmul_transpose_a (tile0 N A) ex ;;
        b <- attr_b linear_mean ;;
        match eKxz with
        | T2 e =>
            ebKxz <- broadcast3 rmul (expand_vec_0_2 b) (expand_mat_1 e) ;;
            r <- broadcast3 radd eAxKxz ebKxz ;;
            Ret (T3 r)
        | _ => Raise ShapeMismatch
        end
    | _ => Raise ShapeMismatch
    end.

(** *** misc.py, lines 81-92: the recursion guard *)
Definition _E_Identity_Kernel : rule :=
  fun expectation p identity_mean _ kernel feature nghp =>
    Raise NotImplementedError.

(** *** misc.py, lines 99-103: DiagonalGaussian to full Gaussian *)
Definition _E_DiagonalGaussian : rule :=
  fun expectation p obj1 feat1 obj2 feat2 nghp =>
    match p with
    | DiagonalGaussian mu cov =>
        let gaussian := Gaussian mu (batch_diag cov) in
        expectation gaussian (Pair obj1 feat1) (Pair obj2 feat2) nghp
    | _ => Raise TypeError
    end.

(** *** misc.py, lines 108-123: MarkovGaussian to Gaussian *)
Definition _E_MarkovGaussian : rule :=
  fun expectation p obj1 feat1 obj2 feat2 nghp =>
    if is_None obj2 then
      match p with
      | MarkovGaussian mu cov =>
          c0 <- index0 cov ;;
          let gaussian := Gaussian (drop_last mu) (drop_last c0) in
          expectation gaussian (Pair obj1 feat1) absent nghp
      | _ => Raise TypeError
      end
    else if is_None obj1 then
      match p with
      | MarkovGaussian mu cov =>
          c0 <- index0 cov ;;
          let gaussian := Gaussian (drop_first mu) (drop_first c0) in
          expectation gaussian (Pair obj2 feat2) absent nghp
      | _ => Raise TypeError
      end
    else expectation p (Pair obj1 feat1) (Pair obj2 feat2) nghp.

End Rules.

Arguments pyobj R : clear implicits.
Arguments dist R : clear implicits.
Arguments term R : clear implicits.
Arguments expect_fn R : clear implicits.
Arguments rule R : clear implicits.

(** * The dispatcher

    Modelled from the spec: [expectation_dispatch] and [expectation] are
    imported by misc.py from the dispatch module, which is not among the
    sources.  Section 4.1 of the spec describes them: a rule is registered
    under a tuple of five type patterns, [resolve] returns the most
    specific rule whose pattern matches the runtime types of the call and
    fails with [NoMatchingRule] when nothing matches or no match is the
    most specific, and [expectation] builds the signature, resolves it and
    calls the rule. *)

(** A signature and a pattern are five classes: distribution, operator 1,
    feature 1, operator 2, feature 2. *)
Record signature : Type := Sig {
  s_dist : cls;
  s_obj1 : cls;
  s_feat1 : cls;
  s_obj2 : cls;
  s_feat2 : cls
}.

Definition pointwise (f : cls -> cls -> bool) (s t : signature) : bool :=
  f (s_dist s) (s_dist t) && f (s_obj1 s) (s_obj1 t) && f (s_feat1 s) (s_feat1 t)
  && f (s_obj2 s) (s_obj2 t) && f (s_feat2 s) (s_feat2 t).

(** A pattern matches a signature when every runtime class is a subclass
    of the class at its position. *)
Definition matches (pat s : signature) : bool := pointwise issubclass s pat.

(** [more_specific p q]: everything [p] matches, [q] matches, and not the
    other way round. *)
Definition more_specific (p q : signature) : bool :=
  pointwise issubclass p q && negb (pointwise issubclass q p).

(** A type annotation [Union[...]] registers the rule once for each of its
    members. *)
Definition union5 (d o1 f1 o2 f2 : list cls) : list signature :=
  flat_map (fun a => flat_map (fun b => flat_map (fun c => flat_map (fun e =>
    map (fun g => Sig a b c e g) f2) o2) f1) o1) d.

Section Dispatch.
Context {R : Type} {SR : Scalar R}.

Definition registry : Type := list (signature * rule R).

Definition expectation_dispatch (pats : list signature) (f : rule R)
    (reg : registry) : registry :=
  reg ++ map (fun pat => (pat, f)) pats.

(** The candidates for a signature, and the one among them whose pattern
    is more specific than that of every other candidate. *)
Definition candidates (reg : registry) (s : signature) : registry :=
  filter (fun e => matches (fst e) s) reg.

Definition not_outranked_by (e e' : signature * rule R) : bool :=
  negb (more_specific (fst e) (fst e')).

Definition is_best (cands : registry) (e : signature * rule R) : bool :=
  length (filter (not_outranked_by e) cands) =? 1.

Definition resolve (reg : registry) (s : signature) : outcome (rule R) :=
  match find (is_best (candidates reg s)) (candidates reg s) with
  | Some e => Ret (snd e)
  | None => Raise NoMatchingRule
  end.

(** A bare operator is the pair of the operator and no feature. *)
Definition term_obj (t : term R) : pyobj R :=
  match t with Bare o => o | Pair o _ => o end.
Definition term_feat (t : term R) : pyobj R :=
  match t with Bare _ => PyNone | Pair _ f => f end.

Definition signature_of (p : dist R) (t1 t2 : term R) : signature :=
  Sig (type_of_dist p) (type_of (term_obj t1)) (type_of (term_feat t1))
      (type_of (term_obj t2)) (type_of (term_feat t2)).

(** [expectation(p, obj1, obj2, nghp)], evaluated with a bound on the
    depth of the calls that re-enter the dispatcher. *)
Fixpoint expectation (fuel : nat) (reg : registry) : expect_fn R :=
  fun p t1 t2 nghp =>
    match fuel with
    | 0 => OutOfFuel
    | S fuel' =>
        f <- resolve reg (signature_of p t1 t2) ;;
        f (expectation fuel' reg) p (term_obj t1) (term_feat t1)
          (term_obj t2) (term_feat t2) nghp
    end.

(** The registrations of misc.py, in the order of the file. *)
Definition misc_registry : registry :=
  expectation_dispatch
    (union5 [CMarkovGaussian] [Cobject] [CInducingFeature; CNoneType]
            [Cobject] [CInducingFeature; CNoneType])
    _E_MarkovGaussian
  (expectation_dispatch
    (union5 [CDiagonalGaussian] [Cobject] [CInducingFeature; CNoneType]
            [Cobject] [CInducingFeature; CNoneType])
    _E_DiagonalGaussian
  (expectation_dispatch
    (union5 [CGaussian] [Cmfn_Identity] [CNoneType] [CKernel] [CInducingPoints])
    _E_Identity_Kernel
  (expectation_dispatch
    (union5 [CGaussian] [Cmfn_Linear] [CNoneType] [CKernel] [CInducingPoints])
    _E_Linear_Kernel
  (expectation_dispatch
    (union5 [CGaussian] [Cmfn_Constant] [CNoneType] [CKernel] [CInducingPoints])
    _E_Constant_Kernel
  (expectation_dispatch
    (union5 [CMarkovGaussian; CGaussian] [CKernel] [CInducingFeature]
            [CMeanFunction] [CNoneType])
    _E_Kernel_MeanFunction
  (expectation_dispatch
    (union5 [CMarkovGaussian; CGaussian] [Cmfn_Identity] [CNoneType]
            [Ckernels_Linear] [CInducingPoints])
    _E_Identity_kLinear
    [])))))).

(** The patterns under which misc.py registers its rules. *)
Definition pat_Identity_Kernel : signature :=
  Sig CGaussian Cmfn_Identity CNoneType CKernel CInducingPoints.
Definition pat_Linear_Kernel : signature :=
  Sig CGaussian Cmfn_Linear CNoneType CKernel CInducingPoints.
Definition pat_Identity_kLinear (d : cls) : signature :=
  Sig d Cmfn_Identity CNoneType Ckernels_Linear CInducingPoints.
Definition pat_fallback (d f1 f2 : cls) : signature :=
  Sig d Cobject f1 Cobject f2.

(** The conversion rules are registered for a feature position that
    holds an inducing feature or nothing. *)
Definition feature_or_none (c : cls) : bool :=
  cls_eqb c CNoneType || issubclass c CInducingFeature.
Definition feature_pattern (c : cls) : cls :=
  if cls_eqb c CNoneType then CNoneType else CInducingFeature.

(** The rule set of a process: the rules of misc.py and those the kernel
    modules register. *)
Definition registry_with (extras : registry) : registry := misc_registry ++ extras.

(** No rule of [rules] stands between the pattern [pat] and the signature
    [s]: each one either does not match [s] or is less specific than
    [pat]. *)
Definition outranks (pat s : signature) (rules : registry) : bool :=
  forallb (fun e => negb (matches (fst e) s) || more_specific pat (fst e)) rules.

(** [E'] returns whatever [E] returns; it may also return where [E] has
    run out of fuel. *)
Definition extends (E E' : expect_fn R) : Prop :=
  forall p t1 t2 nghp,
    E p t1 t2 nghp <> OutOfFuel -> E' p t1 t2 nghp = E p t1 t2 nghp.

(** A rule that only uses the results of its calls to [expectation], as
    Python code does. *)
Definition rule_monotone (f : rule R) : Prop :=
  forall E E', extends E E' ->
    forall p o1 f1 o2 f2 nghp,
      f E p o1 f1 o2 f2 nghp <> OutOfFuel ->
      f E' p o1 f1 o2 f2 nghp = f E p o1 f1 o2 f2 nghp.

End Dispatch.

Arguments registry R : clear implicits.


(** * The formulas of the specification

    The closed forms that the rule table of the spec gives, written by
    index; the theorems compare what the rules compute with them. *)
Section SpecFormulas.
Context {R : Type} {SR : Scalar R}.

(** Linear mean function [m(x) = A x + b], with [A] of shape D x Q:
    entry (n, q, m) is
    [sum_d A[d][q] * exKxz[n][d][m] + b[q] * eKxz[n][m]]. *)
Definition linear_mean_closed_form (A : mat R) (b : vec R) (exKxz : ten3 R)
    (eKxz : mat R) (N D Q M : nat) : ten3 R :=
  tabulate3 N Q M (fun n q m =>
    radd (sum_upto D (fun d => rmul (get2 A d q) (get3 exKxz n d m)))
         (rmul (nth q b rzero) (get2 eKxz n m))).

(** The adjoint of an N x M x D tensor: the last two axes swapped. *)
Definition swap_last_axes (N M D : nat) (t : ten3 R) : ten3 R :=
  tabulate3 N D M (fun n d m => get3 t n m d).

(** The diagonal embedding of per-dimension variances [v], N x D: entry
    (n, i, j) is [v[n][i]] on the diagonal and zero off it. *)
Definition diagonal_embedding (N D : nat) (v : mat R) : ten3 R :=
  tabulate3 N D D (fun n i j => if i =? j then get2 v n i else rzero).

End SpecFormulas.

(** * Further closed forms *)
Section MoreFormulas.
Context {R : Type} {SR : Scalar R}.

(** Constant mean function, evaluated to [c] of shape N x Q: entry
    (n, q, m) is [c[n][q] * eKxz[n][m]]. *)
Definition constant_mean_closed_form (c eKxz : mat R) (N Q M : nat) : ten3 R :=
  tabulate3 N Q M (fun n q m => rmul (get2 c n q) (get2 eKxz n m)).

(** Linear mean function whose offset is a single number [b0], shared by
    the Q outputs: entry (n, q, m) is
    [sum_d A[d][q] * exKxz[n][d][m] + b0 * eKxz[n][m]]. *)
Definition linear_mean_shared_offset_form (A : mat R) (b0 : R) (exKxz : ten3 R)
    (eKxz : mat R) (N D Q M : nat) : ten3 R :=
  tabulate3 N Q M (fun n q m =>
    radd (sum_upto D (fun d => rmul (get2 A d q) (get3 exKxz n d m)))
         (rmul b0 (get2 eKxz n m))).

(** [<K_{Z, x_n} m(x_n)>] for a linear mean function, N x M x Q: entry
    (n, m, q) is entry (n, q, m) of [linear_mean_closed_form]. *)
Definition kernel_linear_mean_closed_form (A : mat R) (b : vec R) (exKxz : ten3 R)
    (eKxz : mat R) (N D Q M : nat) : ten3 R :=
  tabulate3 N M Q (fun n m q =>
    radd (sum_upto D (fun d => rmul (get2 A d q) (get3 exKxz n d m)))
         (rmul (nth q b rzero) (get2 eKxz n m))).

End MoreFormulas.

(** * The sampling helper of gpflow/optimizers/mcmc.py *)
Section SamplingHelperModel.
Context {R : Type} {SR : Scalar R}.

(** The value of a TensorFlow variable: a tensor of any rank, given by its
    shape and its entries in row-major order. *)
Record value : Type := Value {
  shape : list nat;
  entries : list R
}.

Definition ndims (x : value) : nat := length (shape x).

(** [tf.reduce_sum]: the sum of all entries. *)
Definition reduce_sum (x : value) : R := fold_left radd (entries x) rzero.

(** A bijector, consumed for its forward map and the log-determinant of
    the Jacobian of the forward map (given the number of event
    dimensions). *)
Record Bijector : Type := {
  forward : value -> value;
  forward_log_det_jacobian : value -> nat -> value
}.

Record Prior : Type := {
  log_prob : value -> R
}.

(** [gpflow.Parameter], as the helper reads it.  A [tf.Variable] is an
    object with an identity; [unconstrained_variable] names it. *)
Record gpflow_Parameter : Type := {
  unconstrained_variable : nat;
  transform : option Bijector;
  prior : option Prior
}.

(** What the [parameters] sequence may hold at run time. *)
Inductive pyitem : Type :=
| IsParameter (p : gpflow_Parameter)
| NotParameter.

(** The variables of the process: the value each one currently holds. *)
Definition store : Type := nat -> value.

(** [v.assign(x)]. *)
Definition assign (st : store) (v : nat) (x : value) : store :=
  fun w => if w =? v then x else st w.

(** [isinstance(p, Parameter) and p.prior is not None]. *)
Definition has_prior (item : pyitem) : bool :=
  match item with
  | IsParameter p => match prior p with Some _ => true | None => false end
  | NotParameter => false
  end.

Definition as_parameters (items : list pyitem) : list gpflow_Parameter :=
  flat_map (fun item => match item with
                        | IsParameter p => [p]
                        | NotParameter => []
                        end) items.

(** The attributes of a constructed helper.  The wrapped callable takes no
    argument and reads the model, that is the store. *)
Record SamplingHelper : Type := {
  _parameters : list gpflow_Parameter;
  _target_log_prob_fn : store -> R;
  _variables : list nat
}.

(** mcmc.py, lines 48-61. *)
Definition __init__ (target_log_prob_fn : store -> R) (parameters : list pyitem)
    : outcome SamplingHelper :=
  if negb (forallb has_prior parameters)
  then Raise ValueError
  else Ret {| _parameters := as_parameters parameters;
              _target_log_prob_fn := target_log_prob_fn;
              _variables := map unconstrained_variable (as_parameters parameters) |}.

(** mcmc.py, lines 63-67. *)
Definition current_state (self : SamplingHelper) : list nat := _variables self.

(** The loop of lines 79-80: [zip] stops at the shorter sequence. *)
Definition assign_all (st : store) (variables_list : list nat)
    (variables : list value) : store :=
  fold_left (fun s vv => assign s (fst vv) (snd vv))
            (combine variables_list variables) st.

(** The loop of lines 87-93 over the parameters. *)
Definition add_log_det_jacobians (st : store) (parameters : list gpflow_Parameter)
    (log_prob : R) : R :=
  fold_left (fun lp param =>
               match transform param with
               | Some t =>
                   let x := st (unconstrained_variable param) in
                   let log_det_jacobian := forward_log_det_jacobian t x (ndims x) in
                   radd lp (reduce_sum log_det_jacobian)
               | None => lp
               end) parameters log_prob.

(** mcmc.py, lines 69-102: the closure that [target_log_prob_fn] returns,
    applied to the new values in a given store; it yields the store it
    leaves and its first result, the log probability.  The gradient
    function, its second result, is not modelled. *)
Definition target_log_prob_fn (self : SamplingHelper)
    : list value -> store -> store * R :=
  let variables_list := current_state self in
  fun variables st =>
    let st := assign_all st variables_list variables in
    let log_prob := _target_log_prob_fn self st in
    let log_prob := add_log_det_jacobians st (_parameters self) log_prob in
    (st, log_prob).

(** mcmc.py, lines 104-118. *)
Definition convert_to_constrained_values (self : SamplingHelper)
    (hmc_samples : list value) : list value :=
  map (fun hp => match transform (snd hp) with
                 | Some t => forward t (fst hp)
                 | None => fst hp
                 end) (combine hmc_samples (_parameters self)).

(** Modelled from the spec: the constrained value of a parameter, which
    the wrapped callable reads (the Parameter class is not among the
    sources): the forward transform of its unconstrained value, or that
    value itself when it has no transform. *)
Definition constrained_value (st : store) (p : gpflow_Parameter) : value :=
  match transform p with
  | Some t => forward t (st (unconstrained_variable p))
  | None => st (unconstrained_variable p)
  end.

(** The correction the spec describes, from the supplied values: for each
    parameter with a transform, in order, the summed log-determinant of
    the forward Jacobian at the value supplied for it. *)
Definition jacobian_correction (pvs : list (gpflow_Parameter * value)) (log_prob : R) : R :=
  fold_left (fun lp pv =>
               match transform (fst pv) with
               | Some t =>
                   radd lp (reduce_sum
                     (forward_log_det_jacobian t (snd pv) (ndims (snd pv))))
               | None => lp
               end) pvs log_prob.

End SamplingHelperModel.

Arguments value R : clear implicits.
Arguments Bijector R : clear implicits.
Arguments Prior R : clear implicits.
Arguments gpflow_Parameter R : clear implicits.
Arguments pyitem R : clear implicits.
Arguments store R : clear implicits.
Arguments SamplingHelper R : clear implicits.

(** * Concrete inputs

    A small rule set over the integers, as a kernel module would register
    it, and the inputs on which the theorems are run. *)

(** [<K_{x_n, Z}>] of an example kernel: the products of each mean with
    each inducing point, N x M. *)
Definition example_eKxz : rule Z :=
  fun _ p _ feature _ _ _ =>
    match feature with
    | FeatInducingPoints Zs =>
        Ret (T2 (map (fun x => map (fun z => dot x z) Zs) (dist_mu p)))
    | _ => Raise TypeError
    end.

(** [<x_n K_{x_n, Z}>] of the same kernel, N x D x M. *)
Definition example_exKxz : rule Z :=
  fun _ p _ _ _ feature _ =>
    match feature with
    | FeatInducingPoints Zs =>
        Ret (T3 (map (fun x => map (fun xd => map (fun z => (xd * dot x z)%Z) Zs) x)
                     (dist_mu p)))
    | _ => Raise TypeError
    end.

(** [<K_{Z, x_n} x_n>] for the Linear kernel, N x M x D. *)
Definition example_eKzxm_Linear : rule Z :=
  fun _ p _ feature _ _ _ =>
    match feature with
    | FeatInducingPoints Zs =>
        Ret (T3 (map (fun x => map (fun z => map (fun xd => (xd * dot x z)%Z) x) Zs)
                     (dist_mu p)))
    | _ => Raise TypeError
    end.

(** Kernel class 0 has both expectations, kernel class 1 only the plain
    one, and the Linear kernel has its (kernel, Identity) rule. *)
Definition example_extras : registry Z :=
  [ (Sig CGaussian (CKernelOther 0) CInducingPoints CNoneType CNoneType, example_eKxz);
    (Sig CGaussian Cmfn_Identity CNoneType (CKernelOther 0) CInducingPoints, example_exKxz);
    (Sig CGaussian (CKernelOther 1) CInducingPoints CNoneType CNoneType, example_eKxz);
    (Sig CGaussian Ckernels_Linear CInducingPoints Cmfn_Identity CNoneType,
     example_eKzxm_Linear) ].

Definition example_registry : registry Z := registry_with example_extras.

Definition example_mu : list (list Z) := [[1; 2]; [3; 4]]%Z.
Definition example_cov : list (list (list Z)) :=
  [[[1; 0]; [0; 1]]; [[2; 0]; [0; 2]]]%Z.
Definition example_gaussian : dist Z := Gaussian example_mu example_cov.
Definition example_diagonal : dist Z := DiagonalGaussian example_mu [[5; 6]; [7; 8]]%Z.
Definition example_markov_mu : list (list Z) := [[1; 2]; [3; 4]; [5; 6]]%Z.
Definition example_markov_c0 : list (list (list Z)) :=
  [[[1; 0]; [0; 1]]; [[2; 0]; [0; 2]]; [[3; 0]; [0; 3]]]%Z.
Definition example_markov : dist Z :=
  MarkovGaussian example_markov_mu [example_markov_c0; example_markov_c0].
Definition example_points : pyobj Z := FeatInducingPoints [[1; 1]]%Z.
Definition example_A : list (list Z) := [[1; 2; 3]; [4; 5; 6]]%Z.
Definition example_b : list Z := [7; 8; 9]%Z.

(** A parameter with a transform (doubling, with a log-determinant that
    repeats the entries) and one without; both have a prior. *)
Definition example_bijector : Bijector Z :=
  {| forward := fun x => Value (shape x) (map (fun e => (2 * e)%Z) (entries x));
     forward_log_det_jacobian := fun x _ => x |}.
Definition example_prior : Prior Z := {| log_prob := fun _ => 0%Z |}.
Definition example_param0 : gpflow_Parameter Z :=
  {| unconstrained_variable := 0;
     transform := Some example_bijector;
     prior := Some example_prior |}.
Definition example_param1 : gpflow_Parameter Z :=
  {| unconstrained_variable := 1;
     transform := None;
     prior := Some example_prior |}.
Definition example_param_no_prior : gpflow_Parameter Z :=
  {| unconstrained_variable := 2;
     transform := None;
     prior := None |}.
Definition example_store : store Z := fun _ => Value [] [0%Z].
Definition example_target : store Z -> Z :=
  fun st => (reduce_sum (constrained_value st example_param0)
             + reduce_sum (constrained_value st example_param1))%Z.

(** The helper on two parameters, the first with a transform: the new
    values are written to variables 0 and 1, and the result is the target
    at the constrained values, 2 + 4 + 5, plus the Jacobian term 1 + 2 of
    the first parameter. *)
Definition example_helper : SamplingHelper Z :=
  {| _parameters := [example_param0; example_param1];
     _target_log_prob_fn := example_target;
     _variables := [0; 1] |}.

Definition example_values : list (value Z) :=
  [Value [2] [1; 2]%Z; Value [] [5]%Z].

(** Shapes of concrete tensors are checked by evaluation. *)
Ltac shape_by_computation := repeat (split || constructor).

(** * Further concrete inputs *)

(** A rule set with the Linear-mean rule and without the recursion
    guard. *)
Definition example_registry_without_guard : registry Z :=
  [ (pat_Linear_Kernel, _E_Linear_Kernel) ].

(** A store that differs from [example_store] on variable 0 only. *)
Definition example_store_other : store Z :=
  fun w => if w =? 0 then Value [3] [9; 9; 9]%Z else example_store w.

Definition example_diagonal_gaussian : dist Z :=
  Gaussian example_mu (diagonal_embedding 2 2 [[5; 6]; [7; 8]]%Z).

(** The helper on the parameter without a transform alone. *)
Definition example_helper_plain : SamplingHelper Z :=
  {| _parameters := [example_param1];
     _target_log_prob_fn := example_target;
     _variables := [1] |}.
(** * Facts about the tensor operations *)
Section TensorFacts.
Context {R : Type} {SR : Scalar R}.

Lemma nth_map_seq {A : Type} (g : nat -> A) (n i : nat) (d : A) :
  i < n -> nth i (map g (seq 0 n)) d = g i.
Proof.
  intros Hi.
  rewrite (nth_indep _ d (g 0)) by (rewrite length_map, length_seq; exact Hi).
  rewrite map_nth, seq_nth by exact Hi.
  reflexivity.
Qed.

Lemma map_seq_ext {A : Type} (f g : nat -> A) (n : nat) :
  (forall i, i < n -> f i = g i) -> map f (seq 0 n) = map g (seq 0 n).
Proof.
  intros Hfg. apply map_ext_in. intros i Hi.
  apply in_seq in Hi. apply Hfg. lia.
Qed.

Lemma map_as_seq {A B : Type} (f : A -> B) (l : list A) (d : A) :
  map f l = map (fun i => f (nth i l d)) (seq 0 (length l)).
Proof.
  apply nth_ext with (d := f d) (d' := f d).
  - now rewrite !length_map, length_seq.
  - intros i Hi. rewrite length_map in Hi.
    rewrite map_nth, nth_map_seq by exact Hi. reflexivity.
Qed.

Lemma length_tabulate2 (n1 n2 : nat) (f : nat -> nat -> R) :
  length (tabulate2 n1 n2 f) = n1.
Proof. unfold tabulate2. now rewrite length_map, length_seq. Qed.

Lemma nth_tabulate2 (n1 n2 : nat) (f : nat -> nat -> R) (i : nat) :
  i < n1 -> nth i (tabulate2 n1 n2 f) [] = map (f i) (seq 0 n2).
Proof. intros Hi. unfold tabulate2. now rewrite nth_map_seq. Qed.

Lemma get2_tabulate2 (n1 n2 : nat) (f : nat -> nat -> R) (i j : nat) :
  i < n1 -> j < n2 -> get2 (tabulate2 n1 n2 f) i j = f i j.
Proof.
  intros Hi Hj. unfold get2.
  rewrite nth_tabulate2 by exact Hi. now rewrite nth_map_seq.
Qed.

Lemma has_shape2_tabulate2 (n1 n2 : nat) (f : nat -> nat -> R) :
  has_shape2 n1 n2 (tabulate2 n1 n2 f).
Proof.
  split; [apply length_tabulate2|].
  unfold tabulate2. apply Forall_forall. intros r Hr.
  apply in_map_iff in Hr as [i [<- _]].
  now rewrite length_map, length_seq.
Qed.

Lemma tabulate2_ext (n1 n2 : nat) (f g : nat -> nat -> R) :
  (forall i j, i < n1 -> j < n2 -> f i j = g i j) ->
  tabulate2 n1 n2 f = tabulate2 n1 n2 g.
Proof.
  intros Hfg. unfold tabulate2.
  apply map_seq_ext. intros i Hi. apply map_seq_ext. intros j Hj. now apply Hfg.
Qed.

Lemma length_tabulate3 (n1 n2 n3 : nat) (f : nat -> nat -> nat -> R) :
  length (tabulate3 n1 n2 n3 f) = n1.
Proof. unfold tabulate3. now rewrite length_map, length_seq. Qed.

Lemma nth_tabulate3 (n1 n2 n3 : nat) (f : nat -> nat -> nat -> R) (i : nat) :
  i < n1 -> nth i (tabulate3 n1 n2 n3 f) [] = tabulate2 n2 n3 (f i).
Proof. intros Hi. unfold tabulate3. now rewrite nth_map_seq. Qed.

Lemma get3_tabulate3 (n1 n2 n3 : nat) (f : nat -> nat -> nat -> R) (i j k : nat) :
  i < n1 -> j < n2 -> k < n3 -> get3 (tabulate3 n1 n2 n3 f) i j k = f i j k.
Proof.
  intros Hi Hj Hk. unfold get3.
  rewrite nth_tabulate3 by exact Hi.
  now apply get2_tabulate2.
Qed.

Lemma has_shape3_tabulate3 (n1 n2 n3 : nat) (f : nat -> nat -> nat -> R) :
  has_shape3 n1 n2 n3 (tabulate3 n1 n2 n3 f).
Proof.
  split; [apply length_tabulate3|].
  unfold tabulate3. apply Forall_forall. intros r Hr.
  apply in_map_iff in Hr as [i [<- _]].
  apply has_shape2_tabulate2.
Qed.

Lemma tabulate3_ext (n1 n2 n3 : nat) (f g : nat -> nat -> nat -> R) :
  (forall i j k, i < n1 -> j < n2 -> k < n3 -> f i j k = g i j k) ->
  tabulate3 n1 n2 n3 f = tabulate3 n1 n2 n3 g.
Proof.
  intros Hfg. unfold tabulate3.
  apply map_seq_ext. intros i Hi. apply tabulate2_ext. intros j k Hj Hk.
  now apply Hfg.
Qed.

(** A rectangular tensor is the table of its entries. *)
Lemma has_shape2_nth (n1 n2 : nat) (m : mat R) (i : nat) :
  has_shape2 n1 n2 m -> i < n1 -> length (nth i m []) = n2.
Proof.
  intros [Hlen Hrows] Hi.
  rewrite Forall_forall in Hrows. apply Hrows. apply nth_In. lia.
Qed.

Lemma has_shape2_tabulate (n1 n2 : nat) (m : mat R) :
  has_shape2 n1 n2 m -> m = tabulate2 n1 n2 (get2 m).
Proof.
  intros Hm. pose proof Hm as [Hlen Hrows].
  unfold tabulate2.
  rewrite <- (map_id m) at 1.
  rewrite (map_as_seq (fun r => r) m []), Hlen.
  apply map_seq_ext. intros i Hi.
  rewrite <- (map_id (nth i m [])) at 1.
  rewrite (map_as_seq (fun x => x) (nth i m []) rzero).
  rewrite (has_shape2_nth Hm Hi). reflexivity.
Qed.

Lemma has_shape3_nth (n1 n2 n3 : nat) (a : ten3 R) (i : nat) :
  has_shape3 n1 n2 n3 a -> i < n1 -> has_shape2 n2 n3 (nth i a []).
Proof.
  intros [Hlen Hrows] Hi.
  rewrite Forall_forall in Hrows. apply Hrows. apply nth_In. lia.
Qed.

Lemma has_shape3_tabulate (n1 n2 n3 : nat) (a : ten3 R) :
  has_shape3 n1 n2 n3 a -> a = tabulate3 n1 n2 n3 (get3 a).
Proof.
  intros Ha. pose proof Ha as [Hlen Hrows].
  unfold tabulate3.
  rewrite <- (map_id a) at 1.
  rewrite (map_as_seq (fun r => r) a []), Hlen.
  apply map_seq_ext. intros i Hi.
  apply (has_shape2_tabulate (has_shape3_nth Ha Hi)).
Qed.

Lemma ncols_shape2 (n1 n2 : nat) (m : mat R) :
  has_shape2 n1 n2 m -> 1 <= n1 -> ncols m = n2.
Proof.
  intros [Hlen Hrows] Hn. unfold ncols.
  destruct m as [|r m]; simpl in *; [lia|].
  now inversion Hrows.
Qed.

Lemma shape3_has_shape3 (n1 n2 n3 : nat) (a : ten3 R) :
  has_shape3 n1 n2 n3 a -> 1 <= n1 -> 1 <= n2 -> shape3 a = (n1, n2, n3).
Proof.
  intros [Hlen Hrows] H1 H2. unfold shape3.
  destruct a as [|m a]; simpl in *; [lia|].
  inversion Hrows as [|? ? Hm _]; subst.
  destruct Hm as [Hlm Hr].
  destruct m as [|r m]; simpl in *; [lia|].
  inversion Hr; subst. reflexivity.
Qed.

End TensorFacts.

Section OperationFacts.
Context {R : Type} {SR : Scalar R}.

Lemma transpose_entries (n1 n2 : nat) (m : mat R) :
  has_shape2 n1 n2 m -> 1 <= n1 ->
  transpose m = tabulate2 n2 n1 (fun j i => get2 m i j).
Proof.
  intros Hm Hn. unfold transpose, tabulate2.
  rewrite (ncols_shape2 Hm Hn).
  apply map_seq_ext. intros j _.
  rewrite (map_as_seq (fun r => nth j r rzero) m []).
  destruct Hm as [-> _]. reflexivity.
Qed.

Lemma column_entries (n1 n2 : nat) (m : mat R) (j : nat) :
  has_shape2 n1 n2 m -> column j m = map (fun i => get2 m i j) (seq 0 n1).
Proof.
  intros [Hlen _]. unfold column.
  rewrite (map_as_seq (fun r => nth j r rzero) m []), Hlen. reflexivity.
Qed.

Lemma combine_map_same {A B C : Type} (f : A -> B) (g : A -> C) (l : list A) :
  combine (map f l) (map g l) = map (fun x => (f x, g x)) l.
Proof. induction l as [|x l IH]; simpl; [reflexivity | now rewrite IH]. Qed.

Lemma dot_tabulated (n : nat) (f g : nat -> R) :
  dot (map f (seq 0 n)) (map g (seq 0 n)) = sum_upto n (fun d => rmul (f d) (g d)).
Proof.
  unfold dot, sum_upto. now rewrite combine_map_same, map_map.
Qed.

(** The product of the transpose of a D x Q matrix with a D x M matrix. *)
Lemma mat_mul_transpose_entries (D Q M : nat) (A y : mat R) :
  has_shape2 D Q A -> has_shape2 D M y -> 1 <= D ->
  mat_mul (transpose A) y =
  tabulate2 Q M (fun q m => sum_upto D (fun d => rmul (get2 A d q) (get2 y d m))).
Proof.
  intros HA Hy HD. unfold mat_mul.
  rewrite (transpose_entries HA HD), (ncols_shape2 Hy HD).
  unfold tabulate2. rewrite map_map.
  apply map_seq_ext. intros q _. apply map_seq_ext. intros m _.
  rewrite (column_entries m Hy). apply dot_tabulated.
Qed.

Lemma matmul_transpose_a_tile (A : mat R) (ex : ten3 R) :
  Forall (fun y => length y = length A) ex ->
  matmul_transpose_a (tile0 (length ex) A) ex =
  Ret (map (fun y => mat_mul (transpose A) y) ex).
Proof.
  induction 1 as [|y ex Hy _ IH]; [reflexivity|].
  change (tile0 (length (y :: ex)) A) with (A :: tile0 (length ex) A).
  cbn [matmul_transpose_a].
  rewrite Hy, Nat.eqb_refl, IH. reflexivity.
Qed.

(** The batched product of the rule for linear mean functions. *)
Lemma matmul_transpose_a_entries (N D Q M : nat) (A : mat R) (ex : ten3 R) :
  has_shape2 D Q A -> has_shape3 N D M ex -> 1 <= D ->
  matmul_transpose_a (tile0 N A) ex =
  Ret (tabulate3 N Q M (fun n q m =>
         sum_upto D (fun d => rmul (get2 A d q) (get3 ex n d m)))).
Proof.
  intros HA Hex HD. pose proof Hex as [Hlen Hrows].
  subst N. rewrite matmul_transpose_a_tile.
  - f_equal. unfold tabulate3.
    rewrite (map_as_seq (fun y => mat_mul (transpose A) y) ex []).
    apply map_seq_ext. intros n Hn.
    apply (mat_mul_transpose_entries HA (has_shape3_nth Hex Hn) HD).
  - destruct HA as [-> _].
    eapply Forall_impl; [|exact Hrows]. now intros y [Hy _].
Qed.

Lemma bdim_same (n : nat) : bdim n n = Some n.
Proof. unfold bdim. now rewrite Nat.eqb_refl. Qed.

Lemma bdim_one_l (n : nat) : bdim 1 n = Some n.
Proof.
  unfold bdim. destruct (1 =? n) eqn:E; [|reflexivity].
  apply Nat.eqb_eq in E. now subst.
Qed.

Lemma bdim_one_r (n : nat) : bdim n 1 = Some n.
Proof.
  unfold bdim. destruct (n =? 1) eqn:E; reflexivity.
Qed.

Lemma bix_below (d i : nat) : i < d -> bix d i = i.
Proof.
  intros Hi. unfold bix. destruct (d =? 1) eqn:E; [|reflexivity].
  apply Nat.eqb_eq in E. lia.
Qed.

Lemma bix_one (i : nat) : bix 1 i = 0.
Proof. reflexivity. Qed.

(** Elementwise operation on two tensors of the same shape. *)
Lemma broadcast3_same_shape (op : R -> R -> R) (n1 n2 n3 : nat) (a b : ten3 R) :
  has_shape3 n1 n2 n3 a -> has_shape3 n1 n2 n3 b -> 1 <= n1 -> 1 <= n2 ->
  broadcast3 op a b =
  Ret (tabulate3 n1 n2 n3 (fun i j k => op (get3 a i j k) (get3 b i j k))).
Proof.
  intros Ha Hb H1 H2. unfold broadcast3.
  rewrite (shape3_has_shape3 Ha H1 H2), (shape3_has_shape3 Hb H1 H2).
  rewrite !bdim_same. f_equal.
  apply tabulate3_ext. intros i j k Hi Hj Hk.
  now rewrite !bix_below.
Qed.

Lemma nth_map_singleton {A : Type} (l : list A) (i : nat) (d : A) :
  i < length l -> nth i (map (fun x => [x]) l) [] = [nth i l d].
Proof.
  intros Hi.
  rewrite (nth_indep _ [] [d]) by (now rewrite length_map).
  apply (map_nth (fun x => [x])).
Qed.

(** [b[None, :, None] * e[:, None, :]]: the outer product of a vector of
    length Q with each row of an N x M matrix. *)
Lemma broadcast3_outer (op : R -> R -> R) (N Q M : nat) (b : vec R) (e : mat R) :
  length b = Q -> has_shape2 N M e -> 1 <= N -> 1 <= Q ->
  broadcast3 op (expand_vec_0_2 b) (expand_mat_1 e) =
  Ret (tabulate3 N Q M (fun n q m => op (nth q b rzero) (get2 e n m))).
Proof.
  intros Hb He HN HQ. pose proof He as [Hlen Hrows].
  assert (Sb : shape3 (expand_vec_0_2 b) = (1, Q, 1)).
  { unfold shape3, expand_vec_0_2. simpl. rewrite length_map, Hb.
    destruct b as [|x b]; simpl in *; [lia | reflexivity]. }
  assert (Se : shape3 (expand_mat_1 e) = (N, 1, M)).
  { unfold shape3, expand_mat_1. rewrite length_map, Hlen.
    destruct e as [|r e]; simpl in *; [lia|].
    inversion Hrows; subst. reflexivity. }
  unfold broadcast3. rewrite Sb, Se.
  rewrite !bdim_one_l, bdim_one_r. f_equal.
  apply tabulate3_ext. intros n q m Hn Hq Hm.
  rewrite !bix_one, (bix_below Hn), (bix_below Hq), (bix_below Hm).
  unfold get3, get2, expand_vec_0_2, expand_mat_1. simpl.
  rewrite (nth_map_singleton b rzero) by lia.
  rewrite (nth_map_singleton e []) by lia.
  reflexivity.
Qed.

End OperationFacts.

(** * Further facts about broadcasting *)
Section MoreOperationFacts.
Context {R : Type} {SR : Scalar R}.

(** [c[..., None] * e[:, None, :]]: row [n] of an N x Q matrix times row
    [n] of an N x M matrix. *)
Lemma broadcast3_rows (op : R -> R -> R) (N Q M : nat) (c e : mat R) :
  has_shape2 N Q c -> has_shape2 N M e -> 1 <= N -> 1 <= Q ->
  broadcast3 op (expand_mat_2 c) (expand_mat_1 e) =
  Ret (tabulate3 N Q M (fun n q m => op (get2 c n q) (get2 e n m))).
Proof.
  intros Hc He HN HQ.
  pose proof Hc as [Hclen Hcrows]. pose proof He as [Helen Herows].
  assert (Sc : shape3 (expand_mat_2 c) = (N, Q, 1)).
  { unfold shape3, expand_mat_2. rewrite length_map, Hclen.
    destruct c as [|r c]; simpl in *; [lia|].
    inversion Hcrows as [|? ? Hr _]; subst. rewrite length_map.
    destruct r as [|x r]; simpl in *; [lia | reflexivity]. }
  assert (Se : shape3 (expand_mat_1 e) = (N, 1, M)).
  { unfold shape3, expand_mat_1. rewrite length_map, Helen.
    destruct e as [|r e]; simpl in *; [lia|].
    inversion Herows; subst. reflexivity. }
  unfold broadcast3. rewrite Sc, Se.
  rewrite bdim_same, bdim_one_r, bdim_one_l. f_equal.
  apply tabulate3_ext. intros n q m Hn Hq Hm.
  rewrite !bix_one, (bix_below Hn), (bix_below Hq), (bix_below Hm).
  unfold get3, get2, expand_mat_2, expand_mat_1.
  change (@nil (list R)) with (map (fun x : R => [x]) []) at 1.
  rewrite (map_nth (map (fun x : R => [x])) c []).
  rewrite (nth_map_singleton (nth n c []) rzero)
    by (rewrite (has_shape2_nth Hc Hn); exact Hq).
  rewrite (nth_map_singleton e []) by lia.
  reflexivity.
Qed.

(** An N x Q x M tensor combined with an N x 1 x M tensor: the single
    row of the second is used for every [q]. *)
Lemma broadcast3_middle_axis (op : R -> R -> R) (N Q M : nat) (a b : ten3 R) :
  has_shape3 N Q M a -> has_shape3 N 1 M b -> 1 <= N -> 1 <= Q ->
  broadcast3 op a b =
  Ret (tabulate3 N Q M (fun n q m => op (get3 a n q m) (get3 b n 0 m))).
Proof.
  intros Ha Hb HN HQ. unfold broadcast3.
  rewrite (shape3_has_shape3 Ha HN HQ), (shape3_has_shape3 Hb HN (le_n 1)).
  rewrite bdim_same, bdim_one_r, bdim_same. f_equal.
  apply tabulate3_ext. intros n q m Hn Hq Hm.
  now rewrite bix_one, !bix_below.
Qed.

End MoreOperationFacts.

(** * The rules of misc.py

    In this part [expectation] is any function: the rules are studied for
    every dispatcher they could be linked with.  Where a statement is about
    a call of [expectation] itself, a hypothesis says which rule the
    dispatcher hands that call to. *)
Section RuleTheorems.
Context {R : Type} {SR : Scalar R}.

Lemma adjoint_entries (N M D : nat) (t : ten3 R) :
  has_shape3 N M D t -> 1 <= M ->
  adjoint (T3 t) = Ret (T3 (swap_last_axes N M D t)).
Proof.
  intros Ht HM. pose proof Ht as [Hlen _]. subst N.
  unfold adjoint, swap_last_axes, tabulate3. do 2 f_equal.
  rewrite (map_as_seq transpose t []).
  apply map_seq_ext. intros n Hn.
  apply (transpose_entries (has_shape3_nth Ht Hn) HM).
Qed.

Lemma batch_diag_entries (N D : nat) (v : mat R) :
  has_shape2 N D v -> batch_diag v = diagonal_embedding N D v.
Proof.
  intros Hv. pose proof Hv as [Hlen _]. subst N.
  unfold batch_diag, diagonal_embedding, tabulate3.
  rewrite (map_as_seq diag v []).
  apply map_seq_ext. intros n Hn.
  unfold diag. rewrite (has_shape2_nth Hv Hn). reflexivity.
Qed.

(** C6.  The rule for a linear mean function [Linear(A, b)], with [A] of
    shape D x Q and [b] of length Q, on a Gaussian with a mean of shape
    N x D (N, D and Q positive): when the Identity-mean expectation it
    delegates to returns [exKxz] of shape N x D x M and the plain kernel
    expectation returns [eKxz] of shape N x M, the rule returns the
    N x Q x M tensor whose
    entry (n, q, m) is [sum_d A[d][q] * exKxz[n][d][m] + b[q] * eKxz[n][m]]:
    the batched product of the transpose of [A] with [exKxz] plus the
    outer product of [b] with [eKxz]. *)
Theorem Linear_mean_rule_closed_form
    (expectation : expect_fn R) (mu : mat R) (cov : ten3 R)
    (A : mat R) (b : vec R) (kernel feature : pyobj R) (nghp : option nat)
    (exKxz : ten3 R) (eKxz : mat R) (N D Q M : nat) :
  1 <= N -> 1 <= D -> 1 <= Q ->
  has_shape2 N D mu -> has_shape2 D Q A -> length b = Q ->
  has_shape3 N D M exKxz -> has_shape2 N M eKxz ->
  expectation (Gaussian mu cov) (Bare (MeanIdentity D)) (Pair kernel feature) nghp
    = Ret (T3 exKxz) ->
  expectation (Gaussian mu cov) (Pair kernel feature) absent nghp = Ret (T2 eKxz) ->
  _E_Linear_Kernel expectation (Gaussian mu cov) (MeanLinear A b) PyNone
      kernel feature nghp
    = Ret (T3 (linear_mean_closed_form A b exKxz eKxz N D Q M))
  /\ has_shape3 N Q M (linear_mean_closed_form A b exKxz eKxz N D Q M).
Proof.
  intros HN HD HQ Hmu HA Hb Hex He Hcall1 Hcall2.
  split; [|apply has_shape3_tabulate3].
  unfold _E_Linear_Kernel. cbn [dist_mu].
  rewrite (ncols_shape2 Hmu HN). destruct Hmu as [-> _].
  rewrite Hcall1, Hcall2. cbn [bind attr_A attr_b].
  rewrite (matmul_transpose_a_entries HA Hex HD). cbn [bind].
  rewrite broadcast3_outer with (N := N) (Q := Q) (M := M) by assumption.
  cbn [bind].
  rewrite broadcast3_same_shape with (n1 := N) (n2 := Q) (n3 := M)
    by (assumption || apply has_shape3_tabulate3).
  cbn [bind]. do 2 f_equal.
  unfold linear_mean_closed_form.
  apply tabulate3_ext. intros n q m Hn Hq Hm.
  now rewrite !get3_tabulate3.
Qed.

(** C2.  For a distribution [p], an Identity mean function, a Linear
    kernel and InducingPoints: when the dispatcher hands
    [expectation(p, mean, (kernel, feature))] to the transpose rule, that
    call returns the adjoint of [expectation(p, (kernel, feature), mean)];
    for a delegated result of shape N x M x D it is the N x D x M tensor
    with the last two axes swapped, entry (n, d, m) being entry
    (n, m, d). *)
Theorem Identity_kLinear_is_adjoint
    (expectation : expect_fn R) (p : dist R) (input_dim id : nat) (Z : mat R)
    (nghp : option nat) :
  let mean := MeanIdentity input_dim in
  let kernel := KernLinear id in
  let feature := FeatInducingPoints Z in
  expectation p (Bare mean) (Pair kernel feature) nghp
    = _E_Identity_kLinear expectation p mean PyNone kernel feature nghp ->
  expectation p (Bare mean) (Pair kernel feature) nghp
    = (t <- expectation p (Pair kernel feature) (Bare mean) None ;; adjoint t)
  /\ forall (t : ten3 R) (N M D : nat),
       has_shape3 N M D t -> 1 <= M ->
       expectation p (Pair kernel feature) (Bare mean) None = Ret (T3 t) ->
       expectation p (Bare mean) (Pair kernel feature) nghp
         = Ret (T3 (swap_last_axes N M D t))
       /\ has_shape3 N D M (swap_last_axes N M D t)
       /\ forall n d m, n < N -> d < D -> m < M ->
            get3 (swap_last_axes N M D t) n d m = get3 t n m d.
Proof.
  intros mean kernel feature Hroute. rewrite Hroute.
  split; [reflexivity|].
  intros t N M D Ht HM Hcall.
  split; [|split].
  - unfold _E_Identity_kLinear. rewrite Hcall. cbn [bind].
    apply (adjoint_entries Ht HM).
  - apply has_shape3_tabulate3.
  - intros n d m Hn Hd Hm. unfold swap_last_axes.
    now rewrite get3_tabulate3.
Qed.

(** C9.  The transpose rule for (Identity mean, none, Linear kernel,
    InducingPoints) calls [expectation] with [nghp] left at its default:
    its result is the same for any two values of [nghp].  The adjoint rule
    for (Kernel, InducingFeature, MeanFunction, none) passes its [nghp]
    on, and there is a dispatcher with which two values of [nghp] give it
    different results. *)
Theorem transpose_rule_ignores_nghp :
  (forall (expectation : expect_fn R) p mean x kernel feature nghp,
     _E_Identity_kLinear expectation p mean x kernel feature nghp
       = (t <- expectation p (Pair kernel feature) (Bare mean) None ;; adjoint t))
  /\ (forall (expectation : expect_fn R) p mean x kernel feature nghp1 nghp2,
        _E_Identity_kLinear expectation p mean x kernel feature nghp1
          = _E_Identity_kLinear expectation p mean x kernel feature nghp2)
  /\ (forall (expectation : expect_fn R) p kernel feature mean x nghp,
        _E_Kernel_MeanFunction expectation p kernel feature mean x nghp
          = (t <- expectation p (Bare mean) (Pair kernel feature) nghp ;; adjoint t))
  /\ (exists (expectation : expect_fn R) p kernel feature mean x nghp1 nghp2,
        _E_Kernel_MeanFunction expectation p kernel feature mean x nghp1
          <> _E_Kernel_MeanFunction expectation p kernel feature mean x nghp2).
Proof.
  repeat split.
  exists (fun _ _ _ nghp => match nghp with
                            | None => Ret (T2 [])
                            | Some _ => Ret (T3 [])
                            end).
  exists (Gaussian [] []), (KernLinear 0), (FeatInducingPoints []),
         (MeanIdentity 0), PyNone, None, (Some 1).
  discriminate.
Qed.

(** C10.  For a Gaussian [p] and a kernel for which the dispatcher hands
    the Identity-mean expectation to the recursion guard, the rule for a
    linear mean function raises [NotImplementedError], whatever the plain
    kernel expectation would return: the Identity-mean expectation is
    computed first and its failure ends the rule. *)
Theorem Linear_mean_rule_needs_Identity_rule
    (expectation : expect_fn R) (mu : mat R) (cov : ten3 R)
    (A : mat R) (b : vec R) (kernel : pyobj R) (Z : mat R) (nghp : option nat) :
  let p := Gaussian mu cov in
  let identity := MeanIdentity (ncols mu) in
  let feature := FeatInducingPoints Z in
  expectation p (Bare identity) (Pair kernel feature) nghp
    = _E_Identity_Kernel expectation p identity PyNone kernel feature nghp ->
  _E_Linear_Kernel expectation p (MeanLinear A b) PyNone kernel feature nghp
    = Raise NotImplementedError.
Proof.
  intros p identity feature Hroute.
  unfold _E_Linear_Kernel. cbn [dist_mu p].
  fold identity. fold feature. fold p. rewrite Hroute. reflexivity.
Qed.

(** C1.  The generic rule for (Gaussian, Identity mean, none, Kernel,
    InducingPoints) raises [NotImplementedError] for every distribution,
    kernel and feature, without calling [expectation] again; a call of
    [expectation] that the dispatcher hands to it ends in that failure,
    as does the Linear-mean rule that asked for it. *)
Theorem Identity_guard_always_fails :
  (forall (expectation : expect_fn R) p identity_mean x kernel feature nghp,
     _E_Identity_Kernel expectation p identity_mean x kernel feature nghp
       = Raise NotImplementedError)
  /\ (forall (expectation : expect_fn R) mu cov input_dim kernel Z nghp,
        let p := Gaussian mu cov in
        let identity := MeanIdentity input_dim in
        let feature := FeatInducingPoints Z in
        expectation p (Bare identity) (Pair kernel feature) nghp
          = _E_Identity_Kernel expectation p identity PyNone kernel feature nghp ->
        expectation p (Bare identity) (Pair kernel feature) nghp
          = Raise NotImplementedError).
Proof.
  split; [reflexivity|].
  intros expectation mu cov input_dim kernel Z nghp p identity feature Hroute.
  rewrite Hroute. reflexivity.
Qed.

(** C3.  For a DiagonalGaussian with mean [mu] and per-dimension
    variances [v] of shape N x D, and any pair of terms: when the
    dispatcher hands the call to the conversion rule, [expectation] on the
    DiagonalGaussian is [expectation] on the Gaussian with mean [mu] and
    the covariance whose entry (n, i, j) is [v[n][i]] for [i = j] and zero
    otherwise, with the same terms and [nghp]. *)
Theorem DiagonalGaussian_is_full_Gaussian
    (expectation : expect_fn R) (mu v : mat R) (N D : nat)
    (obj1 feat1 obj2 feat2 : pyobj R) (nghp : option nat) :
  let p := DiagonalGaussian mu v in
  has_shape2 N D v ->
  expectation p (Pair obj1 feat1) (Pair obj2 feat2) nghp
    = _E_DiagonalGaussian expectation p obj1 feat1 obj2 feat2 nghp ->
  expectation p (Pair obj1 feat1) (Pair obj2 feat2) nghp
    = expectation (Gaussian mu (diagonal_embedding N D v))
        (Pair obj1 feat1) (Pair obj2 feat2) nghp.
Proof.
  intros p Hv Hroute. rewrite Hroute.
  unfold _E_DiagonalGaussian, p. now rewrite (batch_diag_entries Hv).
Qed.

(** C4.  For a MarkovGaussian with a mean over N steps and a first
    covariance block [c0] over the same steps: when the dispatcher hands
    the call to the conversion rule, [expectation] with only the first
    term is [expectation] of that term on the Gaussian of the first N-1
    steps of the mean and of [c0], and [expectation] with only the second
    term is [expectation] of that term on the Gaussian of the last N-1
    steps. *)
Theorem MarkovGaussian_single_term
    (expectation : expect_fn R) (mu : mat R) (c0 : ten3 R) (cs : ten4 R) (N : nat)
    (obj feat : pyobj R) (nghp : option nat) :
  let p := MarkovGaussian mu (c0 :: cs) in
  length mu = N -> length c0 = N ->
  (expectation p (Pair obj feat) absent nghp
     = _E_MarkovGaussian expectation p obj feat PyNone PyNone nghp ->
   expectation p (Pair obj feat) absent nghp
     = expectation (Gaussian (firstn (N - 1) mu) (firstn (N - 1) c0))
         (Pair obj feat) absent nghp)
  /\ (is_None obj = false ->
      expectation p absent (Pair obj feat) nghp
        = _E_MarkovGaussian expectation p PyNone PyNone obj feat nghp ->
      expectation p absent (Pair obj feat) nghp
        = expectation (Gaussian (skipn 1 mu) (skipn 1 c0))
            (Pair obj feat) absent nghp).
Proof.
  intros p Hmu Hc0. split.
  - intros Hroute. rewrite Hroute.
    unfold _E_MarkovGaussian, p, drop_last. cbn [is_None index0 bind].
    rewrite !removelast_firstn_len, Hmu, Hc0.
    now replace (Nat.pred N) with (N - 1) by lia.
  - intros Hobj Hroute. rewrite Hroute.
    unfold _E_MarkovGaussian, p, drop_first. rewrite Hobj.
    cbn [is_None index0 bind].
    now destruct mu, c0.
Qed.

End RuleTheorems.

(** * The dispatcher and the rules together *)
Section DispatchTheorems.
Context {R : Type} {SR : Scalar R}.

Lemma expectation_unfold (fuel : nat) (reg : registry R) (p : dist R)
    (t1 t2 : term R) (nghp : option nat) :
  expectation (S fuel) reg p t1 t2 nghp
  = (f <- resolve reg (signature_of p t1 t2) ;;
     f (expectation fuel reg) p (term_obj t1) (term_feat t1)
       (term_obj t2) (term_feat t2) nghp).
Proof. reflexivity. Qed.

Lemma more_specific_irrefl (p : signature) : more_specific p p = false.
Proof. unfold more_specific. now destruct (pointwise issubclass p p). Qed.

Lemma more_specific_asym (p q : signature) :
  more_specific p q = true -> more_specific q p = false.
Proof.
  unfold more_specific. intros H.
  apply andb_true_iff in H as [Hpq _]. rewrite Hpq.
  now destruct (pointwise issubclass q p).
Qed.

Lemma outranks_app (pat s : signature) (l1 l2 : registry R) :
  outranks pat s (l1 ++ l2) = outranks pat s l1 && outranks pat s l2.
Proof. apply forallb_app. Qed.

Lemma outranks_candidates (pat s : signature) (l : registry R) (x : signature * rule R) :
  outranks pat s l = true -> In x (candidates l s) ->
  more_specific pat (fst x) = true.
Proof.
  unfold outranks, candidates. intros Hl Hx.
  apply filter_In in Hx as [Hin Hm].
  rewrite forallb_forall in Hl. specialize (Hl x Hin).
  rewrite Hm in Hl. exact Hl.
Qed.

Lemma filter_nothing {A : Type} (f : A -> bool) (l : list A) :
  (forall x, In x l -> f x = false) -> filter f l = [].
Proof.
  induction l as [|a l IH]; intros H; [reflexivity|]. simpl.
  rewrite (H a) by now left. apply IH. intros x Hx. apply H. now right.
Qed.

Lemma find_after {A : Type} (f : A -> bool) (l1 l2 : list A) (a : A) :
  (forall x, In x l1 -> f x = false) -> f a = true ->
  find f (l1 ++ a :: l2) = Some a.
Proof.
  induction l1 as [|b l1 IH]; intros H1 Ha; simpl.
  - now rewrite Ha.
  - rewrite (H1 b) by now left. apply IH; [|exact Ha].
    intros x Hx. apply H1. now right.
Qed.

Lemma filter_length_pos {A : Type} (f : A -> bool) (l : list A) (x : A) :
  In x l -> f x = true -> 1 <= length (filter f l).
Proof.
  intros Hin Hf.
  assert (Hx : In x (filter f l)) by (apply filter_In; now split).
  destruct (filter f l); [destruct Hx | simpl; lia].
Qed.

(** A matching rule whose pattern is more specific than that of every
    other matching rule is the one [resolve] returns. *)
Lemma resolve_most_specific (l1 l2 : registry R) (e : signature * rule R)
    (s : signature) :
  matches (fst e) s = true ->
  outranks (fst e) s l1 = true -> outranks (fst e) s l2 = true ->
  resolve (l1 ++ e :: l2) s = Ret (snd e).
Proof.
  intros He H1 H2. unfold resolve.
  assert (Hc : candidates (l1 ++ e :: l2) s
               = candidates l1 s ++ e :: candidates l2 s).
  { unfold candidates. rewrite filter_app. simpl. now rewrite He. }
  rewrite Hc.
  rewrite find_after; [reflexivity| |].
  - intros x Hx. unfold is_best.
    pose proof (outranks_candidates _ _ _ _ H1 Hx) as Hex.
    rewrite filter_app. simpl.
    unfold not_outranked_by at 2. rewrite (more_specific_asym _ _ Hex). simpl.
    rewrite length_app. simpl.
    assert (1 <= length (filter (not_outranked_by x) (candidates l1 s))).
    { apply filter_length_pos with (x := x); [exact Hx|].
      unfold not_outranked_by. now rewrite more_specific_irrefl. }
    apply Nat.eqb_neq. lia.
  - unfold is_best. rewrite filter_app. simpl.
    unfold not_outranked_by at 2. rewrite more_specific_irrefl. simpl.
    rewrite !filter_nothing; [reflexivity| |].
    + intros x Hx. unfold not_outranked_by.
      now rewrite (outranks_candidates _ _ _ _ H2 Hx).
    + intros x Hx. unfold not_outranked_by.
      now rewrite (outranks_candidates _ _ _ _ H1 Hx).
Qed.

Lemma nth_error_split_at {A : Type} (l : list A) (k : nat) (a : A) :
  nth_error l k = Some a -> l = firstn k l ++ a :: skipn (S k) l.
Proof.
  revert k. induction l as [|b l IH]; intros [|k] H; try discriminate.
  - injection H as ->. reflexivity.
  - simpl. f_equal. now apply IH.
Qed.

(** The rule at position [k] of misc.py's registrations is resolved when
    it matches and outranks the other registrations of the file and the
    rules registered elsewhere. *)
Lemma resolve_misc (k : nat) (e : signature * rule R) (extras : registry R)
    (s : signature) :
  nth_error misc_registry k = Some e ->
  matches (fst e) s = true ->
  outranks (fst e) s (firstn k misc_registry) = true ->
  outranks (fst e) s (skipn (S k) misc_registry) = true ->
  outranks (fst e) s extras = true ->
  resolve (registry_with extras) s = Ret (snd e).
Proof.
  intros Hk He H1 H2 H3. unfold registry_with.
  rewrite (nth_error_split_at _ _ Hk) at 1.
  rewrite <- app_assoc, <- app_comm_cons.
  apply resolve_most_specific; [exact He | exact H1 |].
  rewrite outranks_app, H2, H3. reflexivity.
Qed.

(** The Identity-mean request for a kernel class without a rule of its
    own goes to the recursion guard, although the Linear-mean rule
    matches it too. *)
Lemma resolve_Identity_guard (extras : registry R) (n : nat) :
  let s := Sig CGaussian Cmfn_Identity CNoneType (CKernelOther n) CInducingPoints in
  outranks pat_Identity_Kernel s extras = true ->
  resolve (registry_with extras) s = Ret _E_Identity_Kernel
  /\ matches pat_Linear_Kernel s = true.
Proof.
  intros s H. split; [|reflexivity].
  now apply resolve_misc with (k := 6) (e := (pat_Identity_Kernel, _E_Identity_Kernel)).
Qed.

Lemma resolve_Linear_Kernel (extras : registry R) (n : nat) :
  let s := Sig CGaussian Cmfn_Linear CNoneType (CKernelOther n) CInducingPoints in
  outranks pat_Linear_Kernel s extras = true ->
  resolve (registry_with extras) s = Ret _E_Linear_Kernel.
Proof.
  intros s H.
  now apply resolve_misc with (k := 5) (e := (pat_Linear_Kernel, _E_Linear_Kernel)).
Qed.

Lemma resolve_Identity_kLinear_Gaussian (extras : registry R) :
  let s := Sig CGaussian Cmfn_Identity CNoneType Ckernels_Linear CInducingPoints in
  outranks (pat_Identity_kLinear CGaussian) s extras = true ->
  resolve (registry_with extras) s = Ret _E_Identity_kLinear.
Proof.
  intros s H.
  now apply resolve_misc with (k := 1) (e := (pat_Identity_kLinear CGaussian, _E_Identity_kLinear)).
Qed.

Lemma resolve_Identity_kLinear_Markov (extras : registry R) :
  let s := Sig CMarkovGaussian Cmfn_Identity CNoneType Ckernels_Linear CInducingPoints in
  outranks (pat_Identity_kLinear CMarkovGaussian) s extras = true ->
  resolve (registry_with extras) s = Ret _E_Identity_kLinear.
Proof.
  intros s H.
  now apply resolve_misc with (k := 0) (e := (pat_Identity_kLinear CMarkovGaussian, _E_Identity_kLinear)).
Qed.

(** What the modelled dispatcher does with the requests of C1, C2 and
    C10. *)
Lemma expectation_Identity_generic_kernel (fuel : nat) (extras : registry R)
    (mu : mat R) (cov : ten3 R) (input_dim n id : nat) (Z : mat R)
    (nghp : option nat) :
  outranks pat_Identity_Kernel
    (Sig CGaussian Cmfn_Identity CNoneType (CKernelOther n) CInducingPoints)
    extras = true ->
  expectation (S fuel) (registry_with extras) (Gaussian mu cov)
    (Bare (MeanIdentity input_dim)) (Pair (KernOther n id) (FeatInducingPoints Z)) nghp
  = Raise NotImplementedError.
Proof.
  intros H. rewrite expectation_unfold.
  change (signature_of _ _ _) with
    (Sig CGaussian Cmfn_Identity CNoneType (CKernelOther n) CInducingPoints).
  now rewrite (proj1 (resolve_Identity_guard extras n H)).
Qed.

Lemma expectation_Linear_generic_kernel (fuel : nat) (extras : registry R)
    (mu : mat R) (cov : ten3 R) (A : mat R) (b : vec R) (n id : nat) (Z : mat R)
    (nghp : option nat) :
  outranks pat_Identity_Kernel
    (Sig CGaussian Cmfn_Identity CNoneType (CKernelOther n) CInducingPoints)
    extras = true ->
  outranks pat_Linear_Kernel
    (Sig CGaussian Cmfn_Linear CNoneType (CKernelOther n) CInducingPoints)
    extras = true ->
  expectation (S (S fuel)) (registry_with extras) (Gaussian mu cov)
    (Bare (MeanLinear A b)) (Pair (KernOther n id) (FeatInducingPoints Z)) nghp
  = Raise NotImplementedError.
Proof.
  intros HI HL. rewrite expectation_unfold.
  change (signature_of _ _ _) with
    (Sig CGaussian Cmfn_Linear CNoneType (CKernelOther n) CInducingPoints).
  rewrite (resolve_Linear_Kernel extras n HL). cbn [bind term_obj term_feat].
  unfold _E_Linear_Kernel.
  now rewrite expectation_Identity_generic_kernel.
Qed.

Lemma expectation_Identity_kLinear_Gaussian (fuel : nat) (extras : registry R)
    (mu : mat R) (cov : ten3 R) (input_dim id : nat) (Z : mat R) (nghp : option nat) :
  outranks (pat_Identity_kLinear CGaussian)
    (Sig CGaussian Cmfn_Identity CNoneType Ckernels_Linear CInducingPoints)
    extras = true ->
  expectation (S fuel) (registry_with extras) (Gaussian mu cov)
    (Bare (MeanIdentity input_dim)) (Pair (KernLinear id) (FeatInducingPoints Z)) nghp
  = (t <- expectation fuel (registry_with extras) (Gaussian mu cov)
            (Pair (KernLinear id) (FeatInducingPoints Z))
            (Bare (MeanIdentity input_dim)) None ;;
     adjoint t).
Proof.
  intros H. rewrite expectation_unfold.
  change (signature_of _ _ _) with
    (Sig CGaussian Cmfn_Identity CNoneType Ckernels_Linear CInducingPoints).
  now rewrite (resolve_Identity_kLinear_Gaussian extras H).
Qed.

Lemma issubclass_object (c : cls) : issubclass c Cobject = true.
Proof. destruct c; reflexivity. Qed.

Ltac misc_side_conditions :=
  cbv -[issubclass]; rewrite ?issubclass_object; reflexivity.

(** A DiagonalGaussian request goes to the conversion rule, whatever the
    operators are. *)
Lemma resolve_DiagonalGaussian (extras : registry R) (c1 cf1 c2 cf2 : cls) :
  let s := Sig CDiagonalGaussian c1 cf1 c2 cf2 in
  feature_or_none cf1 = true -> feature_or_none cf2 = true ->
  outranks (pat_fallback CDiagonalGaussian (feature_pattern cf1) (feature_pattern cf2))
    s extras = true ->
  resolve (registry_with extras) s = Ret _E_DiagonalGaussian.
Proof.
  intros s H1 H2 H. subst s.
  destruct cf1; try discriminate H1; destruct cf2; try discriminate H2;
    cbn [feature_pattern cls_eqb] in H;
    first
      [ apply resolve_misc with (k := 7)
          (e := (pat_fallback CDiagonalGaussian CInducingFeature CInducingFeature,
                 _E_DiagonalGaussian));
        [reflexivity | misc_side_conditions | misc_side_conditions
        | misc_side_conditions | exact H]
      | apply resolve_misc with (k := 8)
          (e := (pat_fallback CDiagonalGaussian CInducingFeature CNoneType,
                 _E_DiagonalGaussian));
        [reflexivity | misc_side_conditions | misc_side_conditions
        | misc_side_conditions | exact H]
      | apply resolve_misc with (k := 9)
          (e := (pat_fallback CDiagonalGaussian CNoneType CInducingFeature,
                 _E_DiagonalGaussian));
        [reflexivity | misc_side_conditions | misc_side_conditions
        | misc_side_conditions | exact H]
      | apply resolve_misc with (k := 10)
          (e := (pat_fallback CDiagonalGaussian CNoneType CNoneType,
                 _E_DiagonalGaussian));
        [reflexivity | misc_side_conditions | misc_side_conditions
        | misc_side_conditions | exact H] ].
Qed.

(** A MarkovGaussian request with one term goes to the conversion rule:
    no other rule of misc.py takes a call whose other operator is
    [None]. *)
Lemma resolve_MarkovGaussian_first_term (extras : registry R) (c1 cf1 : cls) :
  let s := Sig CMarkovGaussian c1 cf1 CNoneType CNoneType in
  feature_or_none cf1 = true ->
  outranks (pat_fallback CMarkovGaussian (feature_pattern cf1) CNoneType)
    s extras = true ->
  resolve (registry_with extras) s = Ret _E_MarkovGaussian.
Proof.
  intros s H1 H. subst s.
  destruct cf1; try discriminate H1; cbn [feature_pattern cls_eqb] in H;
    destruct c1;
    first
      [ apply resolve_misc with (k := 12)
          (e := (pat_fallback CMarkovGaussian CInducingFeature CNoneType,
                 _E_MarkovGaussian));
        [reflexivity | reflexivity | reflexivity | reflexivity | exact H]
      | apply resolve_misc with (k := 14)
          (e := (pat_fallback CMarkovGaussian CNoneType CNoneType,
                 _E_MarkovGaussian));
        [reflexivity | reflexivity | reflexivity | reflexivity | exact H] ].
Qed.

Lemma resolve_MarkovGaussian_second_term (extras : registry R) (c2 cf2 : cls) :
  let s := Sig CMarkovGaussian CNoneType CNoneType c2 cf2 in
  feature_or_none cf2 = true ->
  outranks (pat_fallback CMarkovGaussian CNoneType (feature_pattern cf2))
    s extras = true ->
  resolve (registry_with extras) s = Ret _E_MarkovGaussian.
Proof.
  intros s H1 H. subst s.
  destruct cf2; try discriminate H1; cbn [feature_pattern cls_eqb] in H;
    destruct c2;
    first
      [ apply resolve_misc with (k := 13)
          (e := (pat_fallback CMarkovGaussian CNoneType CInducingFeature,
                 _E_MarkovGaussian));
        [reflexivity | reflexivity | reflexivity | reflexivity | exact H]
      | apply resolve_misc with (k := 14)
          (e := (pat_fallback CMarkovGaussian CNoneType CNoneType,
                 _E_MarkovGaussian));
        [reflexivity | reflexivity | reflexivity | reflexivity | exact H] ].
Qed.

(** The entry point reads a bare operator as the pair of the operator and
    no feature. *)
Lemma expectation_normalise (fuel : nat) (reg : registry R) (p : dist R)
    (t1 t2 : term R) (nghp : option nat) :
  expectation fuel reg p (Pair (term_obj t1) (term_feat t1))
    (Pair (term_obj t2) (term_feat t2)) nghp
  = expectation fuel reg p t1 t2 nghp.
Proof. destruct fuel; reflexivity. Qed.

Lemma expectation_normalise_first (fuel : nat) (reg : registry R) (p : dist R)
    (t1 t2 : term R) (nghp : option nat) :
  expectation fuel reg p (Pair (term_obj t1) (term_feat t1)) t2 nghp
  = expectation fuel reg p t1 t2 nghp.
Proof. destruct fuel; reflexivity. Qed.

(** What the modelled dispatcher does with the requests of C3 and C4. *)
Lemma expectation_DiagonalGaussian (fuel : nat) (extras : registry R)
    (mu v : mat R) (t1 t2 : term R) (nghp : option nat) :
  let cf1 := type_of (term_feat t1) in
  let cf2 := type_of (term_feat t2) in
  feature_or_none cf1 = true -> feature_or_none cf2 = true ->
  outranks (pat_fallback CDiagonalGaussian (feature_pattern cf1) (feature_pattern cf2))
    (signature_of (DiagonalGaussian mu v) t1 t2) extras = true ->
  expectation (S fuel) (registry_with extras) (DiagonalGaussian mu v) t1 t2 nghp
  = expectation fuel (registry_with extras) (Gaussian mu (batch_diag v)) t1 t2 nghp.
Proof.
  intros cf1 cf2 H1 H2 H. subst cf1 cf2. rewrite expectation_unfold.
  unfold signature_of in *. cbn [type_of_dist] in *.
  rewrite (resolve_DiagonalGaussian _ _ _ _ _ H1 H2 H).
  cbn [bind]. unfold _E_DiagonalGaussian. apply expectation_normalise.
Qed.

Lemma expectation_MarkovGaussian_first_term (fuel : nat) (extras : registry R)
    (mu : mat R) (c0 : ten3 R) (cs : ten4 R) (t1 : term R) (nghp : option nat) :
  let cf1 := type_of (term_feat t1) in
  feature_or_none cf1 = true ->
  outranks (pat_fallback CMarkovGaussian (feature_pattern cf1) CNoneType)
    (signature_of (MarkovGaussian mu (c0 :: cs)) t1 absent) extras = true ->
  expectation (S fuel) (registry_with extras) (MarkovGaussian mu (c0 :: cs))
    t1 absent nghp
  = expectation fuel (registry_with extras)
      (Gaussian (drop_last mu) (drop_last c0)) t1 absent nghp.
Proof.
  intros cf1 H1 H. subst cf1. rewrite expectation_unfold.
  unfold signature_of in *. cbn [type_of_dist type_of term_obj term_feat absent] in *.
  rewrite (resolve_MarkovGaussian_first_term _ _ _ H1 H).
  cbn [bind]. unfold _E_MarkovGaussian. cbn [is_None index0 bind].
  apply expectation_normalise_first.
Qed.

Lemma expectation_MarkovGaussian_second_term (fuel : nat) (extras : registry R)
    (mu : mat R) (c0 : ten3 R) (cs : ten4 R) (t2 : term R) (nghp : option nat) :
  let cf2 := type_of (term_feat t2) in
  is_None (term_obj t2) = false ->
  feature_or_none cf2 = true ->
  outranks (pat_fallback CMarkovGaussian CNoneType (feature_pattern cf2))
    (signature_of (MarkovGaussian mu (c0 :: cs)) absent t2) extras = true ->
  expectation (S fuel) (registry_with extras) (MarkovGaussian mu (c0 :: cs))
    absent t2 nghp
  = expectation fuel (registry_with extras)
      (Gaussian (drop_first mu) (drop_first c0)) t2 absent nghp.
Proof.
  intros cf2 Hobj H1 H. subst cf2. rewrite expectation_unfold.
  unfold signature_of in *. cbn [type_of_dist type_of term_obj term_feat absent] in *.
  rewrite (resolve_MarkovGaussian_second_term _ _ _ H1 H).
  cbn [bind]. unfold _E_MarkovGaussian. rewrite Hobj.
  cbn [is_None index0 bind].
  apply expectation_normalise_first.
Qed.

(** A rule that hands its call back to the dispatcher unchanged never
    returns: once [resolve] has picked the MarkovGaussian conversion rule
    for a call with two terms, it picks it again at every depth. *)
Lemma MarkovGaussian_both_terms_diverge (reg : registry R) (p : dist R)
    (obj1 feat1 obj2 feat2 : pyobj R) (nghp : option nat) :
  is_None obj1 = false -> is_None obj2 = false ->
  resolve reg (signature_of p (Pair obj1 feat1) (Pair obj2 feat2))
    = Ret _E_MarkovGaussian ->
  forall fuel,
    expectation fuel reg p (Pair obj1 feat1) (Pair obj2 feat2) nghp = OutOfFuel.
Proof.
  intros H1 H2 Hres fuel. induction fuel as [|fuel IH]; [reflexivity|].
  rewrite expectation_unfold, Hres. cbn [bind term_obj term_feat].
  unfold _E_MarkovGaussian. rewrite H1, H2. exact IH.
Qed.

(** Without the guard the Identity-mean request of a kernel with no rule
    of its own would go to the Linear-mean rule, which asks for the
    Identity-mean expectation again: the recursion the docstring of the
    guard describes. *)
Lemma Linear_rule_on_Identity_diverges (reg : registry R) (mu : mat R)
    (cov : ten3 R) (kernel feature : pyobj R) (nghp : option nat) :
  resolve reg (Sig CGaussian Cmfn_Identity CNoneType (type_of kernel) (type_of feature))
    = Ret _E_Linear_Kernel ->
  forall fuel input_dim,
    expectation fuel reg (Gaussian mu cov) (Bare (MeanIdentity input_dim))
      (Pair kernel feature) nghp = OutOfFuel.
Proof.
  intros Hres fuel. induction fuel as [|fuel IH]; intros input_dim; [reflexivity|].
  rewrite expectation_unfold.
  change (signature_of _ _ _) with
    (Sig CGaussian Cmfn_Identity CNoneType (type_of kernel) (type_of feature)).
  rewrite Hres. cbn [bind term_obj term_feat].
  unfold _E_Linear_Kernel. cbn [dist_mu]. now rewrite IH.
Qed.

(** ** More fuel does not change a result *)

Lemma bind_extends {A B : Type} (m m' : outcome A) (k k' : A -> outcome B) :
  (m <> OutOfFuel -> m' = m) ->
  (forall a, k a <> OutOfFuel -> k' a = k a) ->
  bind m k <> OutOfFuel -> bind m' k' = bind m k.
Proof.
  intros Hm Hk H. destruct m as [a| |]; simpl in *.
  - rewrite Hm by discriminate. simpl. now apply Hk.
  - now rewrite Hm by discriminate.
  - contradiction.
Qed.

Lemma monotone_Identity_kLinear : rule_monotone (@_E_Identity_kLinear R SR).
Proof.
  intros E E' HE p o1 f1 o2 f2 nghp H. unfold _E_Identity_kLinear in *.
  apply bind_extends; [apply HE | reflexivity | exact H].
Qed.

Lemma monotone_Kernel_MeanFunction : rule_monotone (@_E_Kernel_MeanFunction R SR).
Proof.
  intros E E' HE p o1 f1 o2 f2 nghp H. unfold _E_Kernel_MeanFunction in *.
  apply bind_extends; [apply HE | reflexivity | exact H].
Qed.

Lemma monotone_Constant_Kernel : rule_monotone (@_E_Constant_Kernel R SR).
Proof.
  intros E E' HE p o1 f1 o2 f2 nghp H. unfold _E_Constant_Kernel in *.
  apply bind_extends; [reflexivity | | exact H].
  intros c Hc. apply bind_extends; [apply HE | reflexivity | exact Hc].
Qed.

Lemma monotone_Linear_Kernel : rule_monotone (@_E_Linear_Kernel R SR).
Proof.
  intros E E' HE p o1 f1 o2 f2 nghp H. unfold _E_Linear_Kernel in *.
  apply bind_extends; [apply HE | | exact H].
  intros ex Hex. apply bind_extends; [apply HE | reflexivity | exact Hex].
Qed.

Lemma monotone_Identity_Kernel : rule_monotone (@_E_Identity_Kernel R).
Proof. intros E E' HE p o1 f1 o2 f2 nghp H. reflexivity. Qed.

Lemma monotone_DiagonalGaussian : rule_monotone (@_E_DiagonalGaussian R SR).
Proof.
  intros E E' HE p o1 f1 o2 f2 nghp H. unfold _E_DiagonalGaussian in *.
  destruct p; try reflexivity. now apply HE.
Qed.

Lemma monotone_MarkovGaussian : rule_monotone (@_E_MarkovGaussian R).
Proof.
  intros E E' HE p o1 f1 o2 f2 nghp H. unfold _E_MarkovGaussian in *.
  destruct (is_None o2); [|destruct (is_None o1)].
  - destruct p; try reflexivity.
    apply bind_extends; [reflexivity | | exact H]. intros c0. apply HE.
  - destruct p; try reflexivity.
    apply bind_extends; [reflexivity | | exact H]. intros c0. apply HE.
  - now apply HE.
Qed.

Lemma monotone_misc_registry :
  Forall (fun e => rule_monotone (snd e)) (@misc_registry R SR).
Proof.
  repeat constructor; cbn [snd];
    auto using monotone_Identity_kLinear, monotone_Kernel_MeanFunction,
               monotone_Constant_Kernel, monotone_Linear_Kernel,
               monotone_Identity_Kernel, monotone_DiagonalGaussian,
               monotone_MarkovGaussian.
Qed.

Lemma resolve_in (reg : registry R) (s : signature) (f : rule R) :
  resolve reg s = Ret f -> exists pat, In (pat, f) reg.
Proof.
  unfold resolve. destruct (find _ _) as [e|] eqn:E; [|discriminate].
  intros H. injection H as <-.
  apply find_some in E as [Hin _]. apply filter_In in Hin as [Hin _].
  exists (fst e). now destruct e.
Qed.

(** With rules that are monotone, one more unit of fuel gives the same
    result wherever the evaluation has returned. *)
Lemma expectation_extends_step (reg : registry R) (fuel : nat) :
  Forall (fun e => rule_monotone (snd e)) reg ->
  extends (expectation fuel reg) (expectation (S fuel) reg).
Proof.
  intros Hreg. induction fuel as [|fuel IH]; intros p t1 t2 nghp H.
  - now contradiction H.
  - rewrite (expectation_unfold (S fuel)), (expectation_unfold fuel).
    rewrite (expectation_unfold fuel) in H.
    destruct (resolve reg (signature_of p t1 t2)) as [f| |] eqn:Ef;
      try reflexivity.
    cbn [bind] in *.
    destruct (resolve_in _ _ Ef) as [pat Hin].
    rewrite Forall_forall in Hreg.
    exact (Hreg _ Hin _ _ IH _ _ _ _ _ _ H).
Qed.

Lemma expectation_more_fuel (reg : registry R) (fuel more : nat)
    (p : dist R) (t1 t2 : term R) (nghp : option nat) :
  Forall (fun e => rule_monotone (snd e)) reg ->
  expectation fuel reg p t1 t2 nghp <> OutOfFuel ->
  expectation (more + fuel) reg p t1 t2 nghp = expectation fuel reg p t1 t2 nghp.
Proof.
  intros Hreg H. induction more as [|more IH]; [reflexivity|].
  cbn [Nat.add]. rewrite <- IH.
  apply expectation_extends_step; [exact Hreg | now rewrite IH].
Qed.

End DispatchTheorems.

(** * The sampling helper *)
Section SamplingHelperTheorems.
Context {R : Type} {SR : Scalar R}.

Lemma assign_same (st : store R) (v : nat) (x : value R) : assign st v x v = x.
Proof. unfold assign. now rewrite Nat.eqb_refl. Qed.

Lemma assign_other (st : store R) (v w : nat) (x : value R) :
  w <> v -> assign st v x w = st w.
Proof.
  intros Hw. unfold assign. destruct (w =? v) eqn:E; [|reflexivity].
  apply Nat.eqb_eq in E. contradiction.
Qed.

(** A variable that is not in the list keeps its value. *)
Lemma assign_all_other (vs : list nat) (xs : list (value R)) (st : store R) (w : nat) :
  ~ In w vs -> assign_all st vs xs w = st w.
Proof.
  revert xs st. unfold assign_all.
  induction vs as [|v vs IH]; intros xs st Hw; [reflexivity|].
  destruct xs as [|x xs]; [reflexivity|]. cbn [combine fold_left fst snd].
  rewrite IH by (intros H; apply Hw; now right).
  apply assign_other. intros ->. apply Hw. now left.
Qed.

(** A variable holds the value supplied at the last position it occupies
    in the list. *)
Lemma assign_all_nth (vs : list nat) (xs : list (value R)) (st : store R)
    (i v : nat) (x : value R) :
  nth_error vs i = Some v -> nth_error xs i = Some x ->
  (forall j, i < j -> nth_error vs j <> Some v) ->
  assign_all st vs xs v = x.
Proof.
  revert xs st i. unfold assign_all.
  induction vs as [|v0 vs IH]; intros xs st i Hv Hx Hlast.
  - now destruct i.
  - destruct xs as [|x0 xs]; [now destruct i|].
    cbn [combine fold_left fst snd]. destruct i as [|i]; simpl in Hv, Hx.
    + injection Hv as ->. injection Hx as ->.
      change (assign_all (assign st v x) vs xs v = x).
      rewrite assign_all_other; [apply assign_same|].
      intros Hin. apply In_nth_error in Hin as [j Hj].
      apply (Hlast (S j)); [lia | exact Hj].
    + apply (IH xs _ i Hv Hx).
      intros j Hj. apply (Hlast (S j)). lia.
Qed.

Lemma NoDup_nth_error_last (vs : list nat) (i : nat) (v : nat) :
  NoDup vs -> nth_error vs i = Some v ->
  forall j, i < j -> nth_error vs j <> Some v.
Proof.
  intros Hnd Hi j Hij Hj.
  assert (i = j); [|lia].
  apply (proj1 (NoDup_nth_error vs) Hnd).
  - apply nth_error_Some. congruence.
  - congruence.
Qed.

(** With distinct variables and a value for each, the Jacobians read from
    the store after the assignment are those at the supplied values. *)
Lemma add_log_det_jacobians_supplied (st : store R) (ps : list (gpflow_Parameter R))
    (xs : list (value R)) (lp : R) :
  length xs = length ps ->
  (forall i p x, nth_error ps i = Some p -> nth_error xs i = Some x ->
                 st (unconstrained_variable p) = x) ->
  add_log_det_jacobians st ps lp = jacobian_correction (combine ps xs) lp.
Proof.
  unfold add_log_det_jacobians, jacobian_correction.
  revert xs lp. induction ps as [|p ps IH]; intros xs lp Hlen Hst; [reflexivity|].
  destruct xs as [|x xs]; [discriminate|].
  cbn [combine fold_left fst snd].
  rewrite (Hst 0 p x eq_refl eq_refl).
  apply IH; [simpl in Hlen; lia|].
  intros i q y Hq Hy. apply (Hst (S i)); assumption.
Qed.

Lemma constrained_values_supplied (st : store R) (ps : list (gpflow_Parameter R))
    (xs : list (value R)) :
  length xs = length ps ->
  (forall i p x, nth_error ps i = Some p -> nth_error xs i = Some x ->
                 st (unconstrained_variable p) = x) ->
  map (constrained_value st) ps =
  map (fun hp => match transform (snd hp) with
                 | Some t => forward t (fst hp)
                 | None => fst hp
                 end) (combine xs ps).
Proof.
  revert xs. induction ps as [|p ps IH]; intros xs Hlen Hst.
  - now destruct xs.
  - destruct xs as [|x xs]; [discriminate|].
    cbn [combine map fst snd]. f_equal.
    + unfold constrained_value. now rewrite (Hst 0 p x eq_refl eq_refl).
    + apply IH; [simpl in Hlen; lia|].
      intros i q y Hq Hy. apply (Hst (S i)); assumption.
Qed.

Lemma init_attributes (target : store R -> R) (items : list (pyitem R))
    (self : SamplingHelper R) :
  __init__ target items = Ret self ->
  _target_log_prob_fn self = target
  /\ _variables self = map unconstrained_variable (_parameters self)
  /\ _parameters self = as_parameters items.
Proof.
  unfold __init__. destruct (negb (forallb has_prior items)); [discriminate|].
  intros H. injection H as <-. now repeat split.
Qed.

(** C7.  For a helper constructed from a callable and parameters, and as
    many new values as parameters, the function that [target_log_prob_fn]
    returns leaves a store in which every variable of a parameter holds
    the value supplied at the last position of that variable (so each
    parameter's own value when the variables are distinct) and every other
    variable is unchanged; its result is the callable evaluated in that
    store plus, for every parameter with a transform, in order, the summed
    log-determinant of the forward Jacobian at the value the parameter's
    variable now holds.  With distinct variables the constrained values
    the callable reads are the forward transforms of the supplied values,
    and the Jacobians are those at the supplied values. *)
Theorem target_log_prob_fn_correct
    (target : store R -> R) (items : list (pyitem R)) (self : SamplingHelper R)
    (variables : list (value R)) (st : store R) :
  __init__ target items = Ret self ->
  length variables = length (_parameters self) ->
  let st' := fst (target_log_prob_fn self variables st) in
  let result := snd (target_log_prob_fn self variables st) in
  (forall i p x,
     nth_error (_parameters self) i = Some p -> nth_error variables i = Some x ->
     (forall j q, i < j -> nth_error (_parameters self) j = Some q ->
                  unconstrained_variable q <> unconstrained_variable p) ->
     st' (unconstrained_variable p) = x)
  /\ (forall w, (forall p, In p (_parameters self) -> unconstrained_variable p <> w) ->
                st' w = st w)
  /\ result = add_log_det_jacobians st' (_parameters self) (target st')
  /\ (NoDup (map unconstrained_variable (_parameters self)) ->
      map (constrained_value st') (_parameters self)
        = convert_to_constrained_values self variables
      /\ result = jacobian_correction (combine (_parameters self) variables)
                    (target st')).
Proof.
  intros Hinit Hlen st' result.
  destruct (init_attributes _ _ Hinit) as [Htarget [Hvars _]].
  assert (Hst' : st' = assign_all st (map unconstrained_variable (_parameters self))
                         variables).
  { unfold st', target_log_prob_fn, current_state. now rewrite Hvars. }
  assert (Hnth : forall i p x,
     nth_error (_parameters self) i = Some p -> nth_error variables i = Some x ->
     (forall j q, i < j -> nth_error (_parameters self) j = Some q ->
                  unconstrained_variable q <> unconstrained_variable p) ->
     st' (unconstrained_variable p) = x).
  { intros i p x Hp Hx Hlast. rewrite Hst'.
    apply assign_all_nth with (i := i).
    - rewrite nth_error_map, Hp. reflexivity.
    - exact Hx.
    - intros j Hj Hq. rewrite nth_error_map in Hq.
      destruct (nth_error (_parameters self) j) as [q|] eqn:Eq; [|discriminate].
      injection Hq as Hq. exact (Hlast j q Hj Eq Hq). }
  split; [exact Hnth|]. split; [|split].
  - intros w Hw. rewrite Hst'. apply assign_all_other.
    intros Hin. apply in_map_iff in Hin as [p [Hp Hin]].
    exact (Hw p Hin Hp).
  - unfold result, st', target_log_prob_fn. cbn [fst snd]. now rewrite Htarget.
  - intros Hnd.
    assert (Hall : forall i p x,
       nth_error (_parameters self) i = Some p -> nth_error variables i = Some x ->
       st' (unconstrained_variable p) = x).
    { intros i p x Hp Hx. apply (Hnth i p x Hp Hx).
      intros j q Hj Hq Heq.
      assert (Hi : nth_error (map unconstrained_variable (_parameters self)) i
                   = Some (unconstrained_variable p))
        by (rewrite nth_error_map, Hp; reflexivity).
      apply (NoDup_nth_error_last Hnd Hi Hj).
      rewrite nth_error_map, Hq. simpl. now rewrite Heq. }
    split.
    + unfold convert_to_constrained_values.
      apply constrained_values_supplied; assumption.
    + rewrite <- (@add_log_det_jacobians_supplied st' (_parameters self) variables (target st') Hlen Hall).
      unfold result, st', target_log_prob_fn. cbn [fst snd]. now rewrite Htarget.
Qed.

(** C8.  Constructing the helper with a sequence that holds a parameter
    without a prior raises [ValueError]: no helper comes into being, so
    none of its attributes is set and no target function exists to be
    stepped. *)
Theorem init_requires_priors
    (target : store R -> R) (items : list (pyitem R)) (p : gpflow_Parameter R) :
  In (IsParameter p) items -> prior p = None ->
  __init__ target items = Raise ValueError
  /\ forall self, __init__ target items <> Ret self.
Proof.
  intros Hin Hprior.
  assert (H : __init__ target items = Raise ValueError).
  { unfold __init__.
    destruct (forallb has_prior items) eqn:E; [|reflexivity].
    rewrite forallb_forall in E. specialize (E _ Hin).
    simpl in E. rewrite Hprior in E. discriminate. }
  split; [exact H|].
  intros self. rewrite H. discriminate.
Qed.

End SamplingHelperTheorems.

(** C5.  With both terms present the MarkovGaussian conversion rule calls
    [expectation] with the distribution and the two terms it was entered
    with.  A dispatcher that resolved this call to the rule resolves the
    repeated call to it again, so the evaluation does not return at any
    depth: the branch re-routes to itself and does not terminate.  On the
    rules of misc.py alone this happens for a MarkovGaussian and two
    kernel terms. *)
Theorem MarkovGaussian_both_terms_never_return :
  (forall (R : Type) (SR : Scalar R) (expectation : expect_fn R) p
          obj1 feat1 obj2 feat2 nghp,
     is_None obj1 = false -> is_None obj2 = false ->
     _E_MarkovGaussian expectation p obj1 feat1 obj2 feat2 nghp
       = expectation p (Pair obj1 feat1) (Pair obj2 feat2) nghp)
  /\ (forall (R : Type) (SR : Scalar R) (reg : registry R) p
             obj1 feat1 obj2 feat2 nghp,
        is_None obj1 = false -> is_None obj2 = false ->
        resolve reg (signature_of p (Pair obj1 feat1) (Pair obj2 feat2))
          = Ret _E_MarkovGaussian ->
        forall fuel,
          expectation fuel reg p (Pair obj1 feat1) (Pair obj2 feat2) nghp
            = OutOfFuel)
  /\ (forall fuel,
        expectation fuel misc_registry example_markov
          (Pair (KernOther 0 0) example_points)
          (Pair (KernOther 0 0) example_points) None
        = OutOfFuel).
Proof.
  split; [|split].
  - intros R SR expectation p obj1 feat1 obj2 feat2 nghp H1 H2.
    unfold _E_MarkovGaussian. now rewrite H1, H2.
  - intros R SR reg p obj1 feat1 obj2 feat2 nghp H1 H2 Hres fuel.
    now apply MarkovGaussian_both_terms_diverge.
  - intros fuel. now apply MarkovGaussian_both_terms_diverge.
Qed.

(** * Further properties of the rules of misc.py *)
Section MoreRuleTheorems.
Context {R : Type} {SR : Scalar R}.

(** The value of the Linear-mean rule, for use below. *)
Lemma Linear_Kernel_value
    (expectation : expect_fn R) (p : dist R)
    (A : mat R) (b : vec R) (kernel feature : pyobj R) (nghp : option nat)
    (exKxz : ten3 R) (eKxz : mat R) (N D Q M : nat) :
  1 <= N -> 1 <= D -> 1 <= Q ->
  has_shape2 N D (dist_mu p) -> has_shape2 D Q A -> length b = Q ->
  has_shape3 N D M exKxz -> has_shape2 N M eKxz ->
  expectation p (Bare (MeanIdentity D)) (Pair kernel feature) nghp = Ret (T3 exKxz) ->
  expectation p (Pair kernel feature) absent nghp = Ret (T2 eKxz) ->
  _E_Linear_Kernel expectation p (MeanLinear A b) PyNone kernel feature nghp
    = Ret (T3 (linear_mean_closed_form A b exKxz eKxz N D Q M)).
Proof.
  intros HN HD HQ Hmu HA Hb Hex He Hcall1 Hcall2.
  unfold _E_Linear_Kernel.
  rewrite (ncols_shape2 Hmu HN). destruct Hmu as [-> _].
  rewrite Hcall1, Hcall2. cbn [bind attr_A attr_b].
  rewrite (matmul_transpose_a_entries HA Hex HD). cbn [bind].
  rewrite broadcast3_outer with (N := N) (Q := Q) (M := M) by assumption.
  cbn [bind].
  rewrite broadcast3_same_shape with (n1 := N) (n2 := Q) (n3 := M)
    by (assumption || apply has_shape3_tabulate3).
  cbn [bind]. do 2 f_equal.
  unfold linear_mean_closed_form.
  apply tabulate3_ext. intros n q m Hn Hq Hm.
  now rewrite !get3_tabulate3.
Qed.

(** The rule for a constant mean function (misc.py, lines 43-57): when
    the mean function evaluates to [c] of shape N x Q on the means and the
    plain kernel expectation returns [eKxz] of shape N x M (N and Q
    positive), the rule returns the N x Q x M tensor with entry (n, q, m)
    equal to [c[n][q] * eKxz[n][m]]. *)
Theorem Constant_mean_rule_closed_form
    (expectation : expect_fn R) (p : dist R) (constant_mean kernel feature : pyobj R)
    (nghp : option nat) (c eKxz : mat R) (N Q M : nat) :
  1 <= N -> 1 <= Q ->
  has_shape2 N Q c -> has_shape2 N M eKxz ->
  mean_call constant_mean (dist_mu p) = Ret c ->
  expectation p (Pair kernel feature) absent nghp = Ret (T2 eKxz) ->
  _E_Constant_Kernel expectation p constant_mean PyNone kernel feature nghp
    = Ret (T3 (constant_mean_closed_form c eKxz N Q M))
  /\ has_shape3 N Q M (constant_mean_closed_form c eKxz N Q M)
  /\ forall n q m, n < N -> q < Q -> m < M ->
       get3 (constant_mean_closed_form c eKxz N Q M) n q m
       = rmul (get2 c n q) (get2 eKxz n m).
Proof.
  intros HN HQ Hc He Hmean Hcall. split; [|split].
  - unfold _E_Constant_Kernel. rewrite Hmean. cbn [bind].
    rewrite Hcall. cbn [bind].
    rewrite broadcast3_rows with (N := N) (Q := Q) (M := M) by assumption.
    reflexivity.
  - apply has_shape3_tabulate3.
  - intros n q m Hn Hq Hm. unfold constant_mean_closed_form.
    now rewrite get3_tabulate3.
Qed.

(** The adjoint rule for (Kernel, InducingFeature, MeanFunction, none)
    (misc.py, lines 30-40): the delegated call is
    [expectation(p, mean, (kernel, feature), nghp=nghp)]; for a result of
    shape N x Q x M (Q positive) the rule returns the N x M x Q tensor
    with entry (n, m, q) equal to entry (n, q, m), a rank-one result is
    refused, and a failure of the delegated call is the failure of the
    rule. *)
Theorem Kernel_MeanFunction_is_adjoint
    (expectation : expect_fn R) (p : dist R) (kernel feature mean x : pyobj R)
    (nghp : option nat) :
  (forall (t : ten3 R) (N Q M : nat),
     has_shape3 N Q M t -> 1 <= Q ->
     expectation p (Bare mean) (Pair kernel feature) nghp = Ret (T3 t) ->
     _E_Kernel_MeanFunction expectation p kernel feature mean x nghp
       = Ret (T3 (swap_last_axes N Q M t))
     /\ has_shape3 N M Q (swap_last_axes N Q M t)
     /\ forall n m q, n < N -> m < M -> q < Q ->
          get3 (swap_last_axes N Q M t) n m q = get3 t n q m)
  /\ (forall v,
        expectation p (Bare mean) (Pair kernel feature) nghp = Ret (T1 v) ->
        _E_Kernel_MeanFunction expectation p kernel feature mean x nghp
          = Raise ShapeMismatch)
  /\ (forall e,
        expectation p (Bare mean) (Pair kernel feature) nghp = Raise e ->
        _E_Kernel_MeanFunction expectation p kernel feature mean x nghp = Raise e).
Proof.
  split; [|split].
  - intros t N Q M Ht HQ Hcall. split; [|split].
    + unfold _E_Kernel_MeanFunction. rewrite Hcall. cbn [bind].
      apply (adjoint_entries Ht HQ).
    + apply has_shape3_tabulate3.
    + intros n m q Hn Hm Hq. unfold swap_last_axes. now rewrite get3_tabulate3.
  - intros v Hcall. unfold _E_Kernel_MeanFunction. now rewrite Hcall.
  - intros e Hcall. unfold _E_Kernel_MeanFunction. now rewrite Hcall.
Qed.

(** The adjoint rule on top of the Linear-mean rule: when the dispatcher
    hands [expectation(p, Linear(A, b), (kernel, feature), nghp)] to the
    Linear-mean rule, [<K_{Z, x_n} m(x_n)>] for the linear mean function
    is the N x M x Q tensor with entry (n, m, q) equal to
    [sum_d A[d][q] * exKxz[n][d][m] + b[q] * eKxz[n][m]]. *)
Theorem Kernel_Linear_mean_composition
    (expectation : expect_fn R) (p : dist R)
    (A : mat R) (b : vec R) (kernel feature : pyobj R) (nghp : option nat)
    (exKxz : ten3 R) (eKxz : mat R) (N D Q M : nat) :
  1 <= N -> 1 <= D -> 1 <= Q ->
  has_shape2 N D (dist_mu p) -> has_shape2 D Q A -> length b = Q ->
  has_shape3 N D M exKxz -> has_shape2 N M eKxz ->
  expectation p (Bare (MeanLinear A b)) (Pair kernel feature) nghp
    = _E_Linear_Kernel expectation p (MeanLinear A b) PyNone kernel feature nghp ->
  expectation p (Bare (MeanIdentity D)) (Pair kernel feature) nghp = Ret (T3 exKxz) ->
  expectation p (Pair kernel feature) absent nghp = Ret (T2 eKxz) ->
  _E_Kernel_MeanFunction expectation p kernel feature (MeanLinear A b) PyNone nghp
    = Ret (T3 (kernel_linear_mean_closed_form A b exKxz eKxz N D Q M))
  /\ has_shape3 N M Q (kernel_linear_mean_closed_form A b exKxz eKxz N D Q M).
Proof.
  intros HN HD HQ Hmu HA Hb Hex He Hroute Hcall1 Hcall2.
  split; [|apply has_shape3_tabulate3].
  unfold _E_Kernel_MeanFunction. rewrite Hroute.
  rewrite Linear_Kernel_value
    with (exKxz := exKxz) (eKxz := eKxz) (N := N) (D := D) (Q := Q) (M := M)
    by assumption.
  cbn [bind].
  rewrite adjoint_entries with (N := N) (M := Q) (D := M)
    by (exact HQ || apply has_shape3_tabulate3).
  do 2 f_equal. unfold swap_last_axes, kernel_linear_mean_closed_form.
  apply tabulate3_ext. intros n m q Hn Hm Hq.
  unfold linear_mean_closed_form. now rewrite get3_tabulate3.
Qed.

(** The Linear-mean rule surfaces the first failure among its two
    delegated calls (misc.py, lines 73-74): a failure of the Identity-mean
    expectation is returned whatever the plain kernel expectation does,
    and a failure of the plain kernel expectation is returned when the
    Identity-mean expectation has succeeded. *)
Theorem Linear_mean_rule_propagates_failures
    (expectation : expect_fn R) (p : dist R) (linear_mean x kernel feature : pyobj R)
    (nghp : option nat) (e : error) :
  let identity := MeanIdentity (ncols (dist_mu p)) in
  (expectation p (Bare identity) (Pair kernel feature) nghp = Raise e ->
   _E_Linear_Kernel expectation p linear_mean x kernel feature nghp = Raise e)
  /\ (forall t,
        expectation p (Bare identity) (Pair kernel feature) nghp = Ret t ->
        expectation p (Pair kernel feature) absent nghp = Raise e ->
        _E_Linear_Kernel expectation p linear_mean x kernel feature nghp = Raise e).
Proof.
  intros identity. split.
  - intros H. unfold _E_Linear_Kernel. fold identity. now rewrite H.
  - intros t H1 H2. unfold _E_Linear_Kernel. fold identity.
    now rewrite H1, H2.
Qed.

(** The Linear-mean rule with an offset of length one and Q outputs: the
    products [b[None, :, None] * eKxz[:, None, :]] have shape N x 1 x M
    and are broadcast over the Q outputs in the final sum, so entry
    (n, q, m) is [sum_d A[d][q] * exKxz[n][d][m] + b0 * eKxz[n][m]]. *)
Theorem Linear_mean_rule_shared_offset
    (expectation : expect_fn R) (p : dist R)
    (A : mat R) (b0 : R) (kernel feature : pyobj R) (nghp : option nat)
    (exKxz : ten3 R) (eKxz : mat R) (N D Q M : nat) :
  1 <= N -> 1 <= D -> 1 <= Q ->
  has_shape2 N D (dist_mu p) -> has_shape2 D Q A ->
  has_shape3 N D M exKxz -> has_shape2 N M eKxz ->
  expectation p (Bare (MeanIdentity D)) (Pair kernel feature) nghp = Ret (T3 exKxz) ->
  expectation p (Pair kernel feature) absent nghp = Ret (T2 eKxz) ->
  _E_Linear_Kernel expectation p (MeanLinear A [b0]) PyNone kernel feature nghp
    = Ret (T3 (linear_mean_shared_offset_form A b0 exKxz eKxz N D Q M))
  /\ has_shape3 N Q M (linear_mean_shared_offset_form A b0 exKxz eKxz N D Q M).
Proof.
  intros HN HD HQ Hmu HA Hex He Hcall1 Hcall2.
  split; [|apply has_shape3_tabulate3].
  unfold _E_Linear_Kernel.
  rewrite (ncols_shape2 Hmu HN). destruct Hmu as [-> _].
  rewrite Hcall1, Hcall2. cbn [bind attr_A attr_b].
  rewrite (matmul_transpose_a_entries HA Hex HD). cbn [bind].
  rewrite broadcast3_outer with (N := N) (Q := 1) (M := M)
    by (assumption || reflexivity || lia).
  cbn [bind].
  rewrite broadcast3_middle_axis with (N := N) (Q := Q) (M := M)
    by (assumption || apply has_shape3_tabulate3).
  cbn [bind]. do 2 f_equal.
  unfold linear_mean_shared_offset_form.
  apply tabulate3_ext. intros n q m Hn Hq Hm.
  rewrite !get3_tabulate3 by (assumption || lia). reflexivity.
Qed.

(** The two transpose rules (misc.py, lines 16-40) delegate to each
    other: rule one asks for the (kernel, mean) ordering and rule two for
    the (mean, kernel) ordering.  When the dispatcher resolves both
    orderings to them, that is when no rule for the kernel itself is
    registered, neither call returns at any depth. *)
Theorem transpose_rules_delegate_forever
    (reg : registry R) (p : dist R) (mean kernel feature : pyobj R) :
  resolve reg (signature_of p (Bare mean) (Pair kernel feature))
    = Ret _E_Identity_kLinear ->
  resolve reg (signature_of p (Pair kernel feature) (Bare mean))
    = Ret _E_Kernel_MeanFunction ->
  forall fuel nghp,
    expectation fuel reg p (Bare mean) (Pair kernel feature) nghp = OutOfFuel
    /\ expectation fuel reg p (Pair kernel feature) (Bare mean) nghp = OutOfFuel.
Proof.
  intros H1 H2 fuel. induction fuel as [|fuel IH]; intros nghp.
  - split; reflexivity.
  - rewrite !expectation_unfold, H1, H2. cbn [bind term_obj term_feat].
    unfold _E_Identity_kLinear, _E_Kernel_MeanFunction.
    rewrite (proj2 (IH None)), (proj1 (IH nghp)). split; reflexivity.
Qed.

(** The conversion rule on top of the Linear-mean rule: for a
    DiagonalGaussian and a linear mean function, when the dispatcher hands
    the converted call to the Linear-mean rule, the result is the closed
    form of that rule with the delegated expectations taken under the
    full Gaussian whose covariance is the diagonal embedding of the
    variances. *)
Theorem DiagonalGaussian_Linear_mean_composition
    (expectation : expect_fn R) (mu v : mat R)
    (A : mat R) (b : vec R) (kernel feature : pyobj R) (nghp : option nat)
    (exKxz : ten3 R) (eKxz : mat R) (N D Q M : nat) :
  let gaussian := Gaussian mu (diagonal_embedding N D v) in
  1 <= N -> 1 <= D -> 1 <= Q ->
  has_shape2 N D mu -> has_shape2 N D v -> has_shape2 D Q A -> length b = Q ->
  has_shape3 N D M exKxz -> has_shape2 N M eKxz ->
  expectation gaussian (Pair (MeanLinear A b) PyNone) (Pair kernel feature) nghp
    = _E_Linear_Kernel expectation gaussian (MeanLinear A b) PyNone
        kernel feature nghp ->
  expectation gaussian (Bare (MeanIdentity D)) (Pair kernel feature) nghp
    = Ret (T3 exKxz) ->
  expectation gaussian (Pair kernel feature) absent nghp = Ret (T2 eKxz) ->
  _E_DiagonalGaussian expectation (DiagonalGaussian mu v) (MeanLinear A b) PyNone
      kernel feature nghp
    = Ret (T3 (linear_mean_closed_form A b exKxz eKxz N D Q M)).
Proof.
  intros gaussian HN HD HQ Hmu Hv HA Hb Hex He Hroute Hcall1 Hcall2.
  unfold _E_DiagonalGaussian. rewrite (batch_diag_entries Hv).
  fold gaussian. rewrite Hroute.
  apply Linear_Kernel_value; assumption.
Qed.

End MoreRuleTheorems.

(** * Further properties of the sampling helper *)
Section MoreSamplingHelperTheorems.
Context {R : Type} {SR : Scalar R}.

Lemma as_parameters_all (items : list (pyitem R)) :
  (forall item, In item items ->
     exists p pr, item = IsParameter p /\ prior p = Some pr) ->
  map IsParameter (as_parameters items) = items
  /\ forallb has_prior items = true.
Proof.
  induction items as [|item items IH]; intros H; [split; reflexivity|].
  destruct (H item (or_introl eq_refl)) as [p [pr [-> Hpr]]].
  destruct IH as [IH1 IH2]; [intros i Hi; apply H; now right|].
  split.
  - cbn [as_parameters flat_map app map]. f_equal. exact IH1.
  - cbn [forallb has_prior]. now rewrite Hpr, IH2.
Qed.

(** The constructor (mcmc.py, lines 48-61) succeeds exactly on sequences
    of parameters that all have a prior.  The helper then holds those
    parameters in the given order, the callable, and the parameters'
    unconstrained variables as its state; a transform is not required.
    Any other sequence, also one that holds something that is not a
    parameter, raises [ValueError]. *)
Theorem init_outcome (target : store R -> R) (items : list (pyitem R)) :
  ((forall item, In item items ->
      exists p pr, item = IsParameter p /\ prior p = Some pr) ->
   exists self,
     __init__ target items = Ret self
     /\ map IsParameter (_parameters self) = items
     /\ _target_log_prob_fn self = target
     /\ current_state self = map unconstrained_variable (_parameters self)
     /\ length (current_state self) = length items)
  /\ (forall item, In item items ->
        item = NotParameter \/ (exists p, item = IsParameter p /\ prior p = None) ->
        __init__ target items = Raise ValueError).
Proof.
  split.
  - intros H. destruct (as_parameters_all items H) as [Hmap Hall].
    unfold __init__. rewrite Hall. cbn [negb].
    eexists. split; [reflexivity|]. cbn.
    repeat split; try assumption.
    rewrite length_map, <- (length_map IsParameter), Hmap. reflexivity.
  - intros item Hin Hbad. unfold __init__.
    destruct (forallb has_prior items) eqn:E; [|reflexivity].
    rewrite forallb_forall in E. specialize (E _ Hin).
    destruct Hbad as [-> | [p [-> Hp]]]; simpl in E.
    + discriminate.
    + rewrite Hp in E. discriminate.
Qed.

Lemma nth_error_combine {A B : Type} (l : list A) (l' : list B) (i : nat) (a : A) (b : B) :
  nth_error l i = Some a -> nth_error l' i = Some b ->
  nth_error (combine l l') i = Some (a, b).
Proof.
  revert l' i. induction l as [|x l IH]; intros l' i Ha Hb.
  - now destruct i.
  - destruct l' as [|y l']; [now destruct i|].
    destruct i as [|i]; simpl in *.
    + now injection Ha as ->; injection Hb as ->.
    + now apply IH.
Qed.

(** [convert_to_constrained_values] (mcmc.py, lines 104-118) pairs the
    samples with the parameters by position and stops at the shorter
    sequence; entry [i] is the forward transform of sample [i] for a
    parameter with a transform and sample [i] itself otherwise.  With no
    transform at all, and no more samples than parameters, the samples
    come back unchanged. *)
Theorem convert_to_constrained_values_entries
    (self : SamplingHelper R) (hmc_samples : list (value R)) :
  length (convert_to_constrained_values self hmc_samples)
    = Nat.min (length hmc_samples) (length (_parameters self))
  /\ (forall i x p,
        nth_error hmc_samples i = Some x ->
        nth_error (_parameters self) i = Some p ->
        nth_error (convert_to_constrained_values self hmc_samples) i
          = Some (match transform p with
                  | Some t => forward t x
                  | None => x
                  end))
  /\ ((forall p, In p (_parameters self) -> transform p = None) ->
      length hmc_samples <= length (_parameters self) ->
      convert_to_constrained_values self hmc_samples = hmc_samples).
Proof.
  unfold convert_to_constrained_values. split; [|split].
  - now rewrite length_map, length_combine.
  - intros i x p Hx Hp.
    rewrite nth_error_map, (nth_error_combine _ _ _ Hx Hp). reflexivity.
  - generalize (_parameters self). intros ps Hnone.
    revert ps Hnone. induction hmc_samples as [|x xs IH]; intros ps Hnone Hlen.
    + reflexivity.
    + destruct ps as [|p ps]; [simpl in Hlen; lia|].
      cbn [combine map fst snd].
      rewrite (Hnone p (or_introl eq_refl)). f_equal.
      apply IH; [intros q Hq; apply Hnone; now right | simpl in Hlen; lia].
Qed.

Lemma add_log_det_jacobians_agree (st st' : store R)
    (ps : list (gpflow_Parameter R)) (lp : R) :
  (forall w, st w = st' w) ->
  add_log_det_jacobians st ps lp = add_log_det_jacobians st' ps lp.
Proof.
  intros H. unfold add_log_det_jacobians. revert lp.
  induction ps as [|p ps IH]; intros lp; [reflexivity|].
  cbn [fold_left]. rewrite H. apply IH.
Qed.

(** Two stores that differ only on the assigned variables agree after
    the assignment, when every variable gets a value. *)
Lemma assign_all_agree (vs : list nat) (xs : list (value R)) (st1 st2 : store R) :
  length vs <= length xs ->
  (forall w, ~ In w vs -> st1 w = st2 w) ->
  forall w, assign_all st1 vs xs w = assign_all st2 vs xs w.
Proof.
  unfold assign_all. revert xs st1 st2.
  induction vs as [|v vs IH]; intros xs st1 st2 Hlen H w.
  - apply H. intros [].
  - destruct xs as [|x xs]; [simpl in Hlen; lia|].
    cbn [combine fold_left fst snd].
    apply IH; [simpl in Hlen; lia|].
    intros u Hu. unfold assign. destruct (u =? v) eqn:E; [reflexivity|].
    apply H. intros [->|Hin]; [|contradiction].
    now rewrite Nat.eqb_refl in E.
Qed.

Lemma closure_agree (target : store R -> R) (items : list (pyitem R))
    (self : SamplingHelper R) (variables : list (value R)) (st1 st2 : store R) :
  __init__ target items = Ret self ->
  length variables = length (_parameters self) ->
  (forall s s', (forall w, s w = s' w) -> target s = target s') ->
  (forall w, (forall p, In p (_parameters self) -> unconstrained_variable p <> w) ->
             st1 w = st2 w) ->
  snd (target_log_prob_fn self variables st1)
    = snd (target_log_prob_fn self variables st2)
  /\ forall w, fst (target_log_prob_fn self variables st1) w
               = fst (target_log_prob_fn self variables st2) w.
Proof.
  intros Hinit Hlen Hext Hagree.
  destruct (init_attributes _ _ Hinit) as [Htarget [Hvars _]].
  assert (Hst : forall w,
            assign_all st1 (current_state self) variables w
            = assign_all st2 (current_state self) variables w).
  { unfold current_state. rewrite Hvars. apply assign_all_agree.
    - rewrite length_map. lia.
    - intros w Hw. apply Hagree. intros p Hp Heq. apply Hw.
      apply in_map_iff. now exists p. }
  unfold target_log_prob_fn. cbn [fst snd]. split; [|exact Hst].
  rewrite Htarget, (Hext _ _ Hst).
  now apply add_log_det_jacobians_agree.
Qed.

(** The function that [target_log_prob_fn] returns (mcmc.py, lines
    78-100) overwrites the variables of the parameters before it reads
    anything: for a callable that reads the store only through the values
    it holds, and a value for every parameter, the result and the store
    left behind do not depend on what those variables held before. *)
Theorem target_log_prob_fn_forgets_old_values
    (target : store R -> R) (items : list (pyitem R))
    (self : SamplingHelper R) (variables : list (value R)) (st1 st2 : store R) :
  __init__ target items = Ret self ->
  length variables = length (_parameters self) ->
  (forall s s', (forall w, s w = s' w) -> target s = target s') ->
  (forall w, (forall p, In p (_parameters self) -> unconstrained_variable p <> w) ->
             st1 w = st2 w) ->
  snd (target_log_prob_fn self variables st1)
    = snd (target_log_prob_fn self variables st2)
  /\ forall w, fst (target_log_prob_fn self variables st1) w
               = fst (target_log_prob_fn self variables st2) w.
Proof. apply closure_agree. Qed.

(** Evaluating the function twice on the same values, the second time
    in the store the first evaluation left, gives the same log
    probability and leaves every variable as it was. *)
Theorem target_log_prob_fn_repeatable
    (target : store R -> R) (items : list (pyitem R))
    (self : SamplingHelper R) (variables : list (value R)) (st : store R) :
  __init__ target items = Ret self ->
  length variables = length (_parameters self) ->
  (forall s s', (forall w, s w = s' w) -> target s = target s') ->
  let st' := fst (target_log_prob_fn self variables st) in
  snd (target_log_prob_fn self variables st')
    = snd (target_log_prob_fn self variables st)
  /\ forall w, fst (target_log_prob_fn self variables st') w = st' w.
Proof.
  intros Hinit Hlen Hext st'.
  apply closure_agree with (target := target) (items := items);
    [exact Hinit | exact Hlen | exact Hext |].
  intros w Hw. unfold st', target_log_prob_fn. cbn [fst].
  destruct (init_attributes _ _ Hinit) as [_ [Hvars _]].
  unfold current_state. rewrite Hvars.
  apply assign_all_other.
  intros Hin. apply in_map_iff in Hin as [p [Hp Hin]]. exact (Hw p Hin Hp).
Qed.

Lemma combine_surplus {A B : Type} (l : list A) (l' extra : list B) :
  length l <= length l' -> combine l (l' ++ extra) = combine l l'.
Proof.
  revert l'. induction l as [|a l IH]; intros l' H; [reflexivity|].
  destruct l' as [|b l']; [simpl in H; lia|].
  simpl. f_equal. apply IH. simpl in H. lia.
Qed.

Lemma assign_all_beyond (vs : list nat) (xs : list (value R)) (st : store R)
    (i v : nat) :
  NoDup vs -> length xs <= i -> nth_error vs i = Some v ->
  assign_all st vs xs v = st v.
Proof.
  revert xs st i. unfold assign_all.
  induction vs as [|v0 vs IH]; intros xs st i Hnd Hi Hv; [reflexivity|].
  destruct xs as [|x xs]; [reflexivity|].
  destruct i as [|i]; [simpl in Hi; lia|].
  cbn [combine fold_left fst snd]. simpl in Hv.
  inversion Hnd as [|? ? Hnotin Hnd']; subst.
  change (assign_all (assign st v0 x) vs xs v = st v).
  unfold assign_all. rewrite (IH xs _ i Hnd'); [|simpl in Hi; lia | exact Hv].
  apply assign_other. intros ->. apply Hnotin. eapply nth_error_In. exact Hv.
Qed.

(** The loop over [zip(variables_list, variables)] (mcmc.py, lines
    79-80) stops at the shorter sequence: values beyond the number of
    parameters are ignored, and with fewer values than parameters the
    variables of the remaining parameters (distinct variables) keep what
    they held. *)
Theorem target_log_prob_fn_zip_truncates
    (target : store R -> R) (items : list (pyitem R))
    (self : SamplingHelper R) (variables : list (value R)) (st : store R) :
  __init__ target items = Ret self ->
  (length (_parameters self) <= length variables ->
   forall surplus,
     target_log_prob_fn self (variables ++ surplus) st
       = target_log_prob_fn self variables st)
  /\ (NoDup (map unconstrained_variable (_parameters self)) ->
      forall i p,
        length variables <= i -> nth_error (_parameters self) i = Some p ->
        fst (target_log_prob_fn self variables st) (unconstrained_variable p)
          = st (unconstrained_variable p)).
Proof.
  intros Hinit.
  destruct (init_attributes _ _ Hinit) as [_ [Hvars _]].
  split.
  - intros Hlen surplus.
    unfold target_log_prob_fn, assign_all, current_state.
    rewrite combine_surplus; [reflexivity|].
    rewrite Hvars, length_map. exact Hlen.
  - intros Hnd i p Hi Hp.
    unfold target_log_prob_fn, current_state. cbn [fst]. rewrite Hvars.
    apply assign_all_beyond with (i := i); [exact Hnd | exact Hi |].
    rewrite nth_error_map, Hp. reflexivity.
Qed.

Lemma add_log_det_jacobians_none (st : store R) (ps : list (gpflow_Parameter R))
    (lp : R) :
  (forall p, In p ps -> transform p = None) ->
  add_log_det_jacobians st ps lp = lp.
Proof.
  unfold add_log_det_jacobians. revert lp.
  induction ps as [|p ps IH]; intros lp H; [reflexivity|].
  cbn [fold_left]. rewrite (H p (or_introl eq_refl)).
  apply IH. intros q Hq. apply H. now right.
Qed.

(** Parameters without a transform add no correction (mcmc.py, line 88):
    when no parameter has a transform the result is the wrapped callable
    evaluated after the assignment.  With no parameter at all the
    constructor succeeds, the values are ignored and the store is left as
    it was. *)
Theorem target_log_prob_fn_without_transforms
    (target : store R -> R) (items : list (pyitem R))
    (self : SamplingHelper R) (variables : list (value R)) (st : store R) :
  __init__ target items = Ret self ->
  ((forall p, In p (_parameters self) -> transform p = None) ->
   snd (target_log_prob_fn self variables st)
     = target (fst (target_log_prob_fn self variables st)))
  /\ (items = [] ->
      target_log_prob_fn self variables st = (st, target st)).
Proof.
  intros Hinit.
  destruct (init_attributes _ _ Hinit) as [Htarget [Hvars Hps]].
  split.
  - intros Hnone. unfold target_log_prob_fn. cbn [fst snd].
    now rewrite add_log_det_jacobians_none, Htarget.
  - intros ->. cbn [as_parameters flat_map] in Hps.
    unfold target_log_prob_fn, current_state.
    rewrite Hvars, Hps, Htarget. reflexivity.
Qed.

End MoreSamplingHelperTheorems.

(** * The theorems on concrete inputs *)

Lemma example_mu_shape : has_shape2 2 2 example_mu.
Proof. split; [reflexivity | repeat constructor]. Qed.

Lemma example_A_shape : has_shape2 2 3 example_A.
Proof. split; [reflexivity | repeat constructor]. Qed.



(** The Linear-mean rule with the example kernel of class 0: N = 2,
    D = 2, Q = 3, M = 1. *)
Lemma Linear_mean_rule_closed_form_witness :
  _E_Linear_Kernel (expectation 2 example_registry) example_gaussian
      (MeanLinear example_A example_b) PyNone (KernOther 0 0) example_points None
    = Ret (T3 (linear_mean_closed_form example_A example_b
                 [[[3]; [6]]; [[21]; [28]]]%Z [[3]; [7]]%Z 2 2 3 1))
  /\ has_shape3 2 3 1
       (linear_mean_closed_form example_A example_b
          [[[3]; [6]]; [[21]; [28]]]%Z [[3]; [7]]%Z 2 2 3 1).
Proof.
  apply (@Linear_mean_rule_closed_form Z _ (expectation 2 example_registry)
           example_mu example_cov example_A example_b (KernOther 0 0)
           example_points None [[[3]; [6]]; [[21]; [28]]]%Z [[3]; [7]]%Z 2 2 3 1);
    try lia; try reflexivity; shape_by_computation.
Defined.

(** The closed form on that input, entry by entry. *)
Example Linear_mean_example_value :
  linear_mean_closed_form example_A example_b
    [[[3]; [6]]; [[21]; [28]]]%Z [[3]; [7]]%Z 2 2 3 1
  = [[[48]; [60]; [72]]; [[182]; [238]; [294]]]%Z.
Proof. reflexivity. Qed.

(** The transpose rule with the Linear kernel: the delegated result is
    2 x 1 x 2, the result 2 x 2 x 1. *)
Lemma Identity_kLinear_is_adjoint_witness :
  expectation 3 example_registry example_gaussian (Bare (MeanIdentity 2))
    (Pair (KernLinear 0) example_points) None
  = Ret (T3 (swap_last_axes 2 1 2 [[[3; 6]]; [[21; 28]]]%Z))
  /\ has_shape3 2 2 1 (swap_last_axes 2 1 2 [[[3; 6]]; [[21; 28]]]%Z)
  /\ forall n d m, n < 2 -> d < 2 -> m < 1 ->
       get3 (swap_last_axes 2 1 2 [[[3; 6]]; [[21; 28]]]%Z) n d m
       = get3 [[[3; 6]]; [[21; 28]]]%Z n m d.
Proof.
  apply (proj2 (@Identity_kLinear_is_adjoint Z _ (expectation 3 example_registry)
                  example_gaussian 2 0 [[1; 1]]%Z None eq_refl)
               [[[3; 6]]; [[21; 28]]]%Z 2 1 2);
    [shape_by_computation | lia | reflexivity].
Defined.

(** Kernel class 1 has a plain kernel expectation and no Identity-mean
    rule of its own. *)
Lemma Linear_mean_rule_needs_Identity_rule_witness :
  expectation 2 example_registry example_gaussian
    (Pair (KernOther 1 0) example_points) absent None = Ret (T2 [[3]; [7]]%Z)
  /\ _E_Linear_Kernel (expectation 2 example_registry) example_gaussian
       (MeanLinear example_A example_b) PyNone (KernOther 1 0) example_points None
     = Raise NotImplementedError.
Proof.
  split; [reflexivity|].
  apply (@Linear_mean_rule_needs_Identity_rule Z _ (expectation 2 example_registry)
           example_mu example_cov example_A example_b (KernOther 1 0)
           [[1; 1]]%Z None).
  reflexivity.
Defined.

Lemma Identity_guard_always_fails_witness :
  expectation 2 example_registry example_gaussian (Bare (MeanIdentity 2))
    (Pair (KernOther 1 0) example_points) None
  = Raise NotImplementedError.
Proof.
  apply (proj2 (@Identity_guard_always_fails Z) (expectation 2 example_registry)
               example_mu example_cov 2 (KernOther 1 0) [[1; 1]]%Z None).
  reflexivity.
Defined.

Lemma DiagonalGaussian_is_full_Gaussian_witness :
  expectation 3 example_registry example_diagonal
    (Pair (KernOther 0 0) example_points) (Pair PyNone PyNone) None
  = expectation 3 example_registry
      (Gaussian example_mu (diagonal_embedding 2 2 [[5; 6]; [7; 8]]%Z))
      (Pair (KernOther 0 0) example_points) (Pair PyNone PyNone) None.
Proof.
  apply (@DiagonalGaussian_is_full_Gaussian Z _ (expectation 3 example_registry)
           example_mu [[5; 6]; [7; 8]]%Z 2 2 (KernOther 0 0) example_points
           PyNone PyNone None);
    [shape_by_computation | reflexivity].
Defined.

Example diagonal_embedding_example :
  diagonal_embedding 2 2 [[5; 6]; [7; 8]]%Z
  = [[[5; 0]; [0; 6]]; [[7; 0]; [0; 8]]]%Z.
Proof. reflexivity. Qed.

Lemma MarkovGaussian_single_term_witness :
  expectation 3 example_registry example_markov
    (Pair (KernOther 0 0) example_points) absent None
  = expectation 3 example_registry
      (Gaussian (firstn (3 - 1) example_markov_mu) (firstn (3 - 1) example_markov_c0))
      (Pair (KernOther 0 0) example_points) absent None
  /\ expectation 3 example_registry example_markov absent
       (Pair (KernOther 0 0) example_points) None
     = expectation 3 example_registry
         (Gaussian (skipn 1 example_markov_mu) (skipn 1 example_markov_c0))
         (Pair (KernOther 0 0) example_points) absent None.
Proof.
  destruct (@MarkovGaussian_single_term Z (expectation 3 example_registry)
              example_markov_mu example_markov_c0 [example_markov_c0] 3
              (KernOther 0 0) example_points None eq_refl eq_refl) as [H1 H2].
  split; [apply H1 | apply H2]; reflexivity.
Defined.

Example MarkovGaussian_example_values :
  expectation 3 example_registry example_markov
    (Pair (KernOther 0 0) example_points) absent None = Ret (T2 [[3]; [7]]%Z)
  /\ expectation 3 example_registry example_markov absent
       (Pair (KernOther 0 0) example_points) None = Ret (T2 [[7]; [11]]%Z).
Proof. split; reflexivity. Qed.

(** The helper on the two example parameters. *)
Lemma target_log_prob_fn_correct_witness :
  let st' := fst (target_log_prob_fn example_helper example_values example_store) in
  let result := snd (target_log_prob_fn example_helper example_values example_store) in
  (forall i p x,
     nth_error (_parameters example_helper) i = Some p ->
     nth_error example_values i = Some x ->
     (forall j q, i < j -> nth_error (_parameters example_helper) j = Some q ->
                  unconstrained_variable q <> unconstrained_variable p) ->
     st' (unconstrained_variable p) = x)
  /\ (forall w, (forall p, In p (_parameters example_helper) ->
                           unconstrained_variable p <> w) ->
                st' w = example_store w)
  /\ result = add_log_det_jacobians st' (_parameters example_helper)
                (example_target st')
  /\ (NoDup (map unconstrained_variable (_parameters example_helper)) ->
      map (constrained_value st') (_parameters example_helper)
        = convert_to_constrained_values example_helper example_values
      /\ result = jacobian_correction
                    (combine (_parameters example_helper) example_values)
                    (example_target st')).
Proof.
  apply (@target_log_prob_fn_correct Z _ example_target
           [IsParameter example_param0; IsParameter example_param1]
           example_helper example_values example_store);
    reflexivity.
Defined.

Example target_log_prob_fn_example_value :
  snd (target_log_prob_fn example_helper example_values example_store) = 14%Z
  /\ convert_to_constrained_values example_helper example_values
     = [Value [2] [2; 4]%Z; Value [] [5]%Z].
Proof. split; reflexivity. Qed.

Lemma init_requires_priors_witness :
  __init__ example_target
    [IsParameter example_param0; IsParameter example_param_no_prior]
  = Raise ValueError
  /\ forall self,
       __init__ example_target
         [IsParameter example_param0; IsParameter example_param_no_prior]
       <> Ret self.
Proof.
  apply (@init_requires_priors Z example_target
           [IsParameter example_param0; IsParameter example_param_no_prior]
           example_param_no_prior).
  - right. left. reflexivity.
  - reflexivity.
Defined.

(** * The further theorems on concrete inputs *)

Lemma Constant_mean_rule_closed_form_witness :
  _E_Constant_Kernel (expectation 2 example_registry) example_gaussian
      (MeanConstant [7; 8; 9]%Z) PyNone (KernOther 0 0) example_points None
    = Ret (T3 (constant_mean_closed_form
                 [[7; 8; 9]; [7; 8; 9]]%Z [[3]; [7]]%Z 2 3 1))
  /\ has_shape3 2 3 1
       (constant_mean_closed_form [[7; 8; 9]; [7; 8; 9]]%Z [[3]; [7]]%Z 2 3 1)
  /\ forall n q m, n < 2 -> q < 3 -> m < 1 ->
       get3 (constant_mean_closed_form
               [[7; 8; 9]; [7; 8; 9]]%Z [[3]; [7]]%Z 2 3 1) n q m
       = rmul (get2 [[7; 8; 9]; [7; 8; 9]]%Z n q) (get2 [[3]; [7]]%Z n m).
Proof.
  apply (@Constant_mean_rule_closed_form Z _ (expectation 2 example_registry)
           example_gaussian (MeanConstant [7; 8; 9]%Z) (KernOther 0 0)
           example_points None [[7; 8; 9]; [7; 8; 9]]%Z [[3]; [7]]%Z 2 3 1);
    try lia; try reflexivity; shape_by_computation.
Defined.

Example Constant_mean_example_value :
  constant_mean_closed_form [[7; 8; 9]; [7; 8; 9]]%Z [[3]; [7]]%Z 2 3 1
  = [[[21]; [24]; [27]]; [[49]; [56]; [63]]]%Z.
Proof. reflexivity. Qed.

Lemma Kernel_Linear_mean_composition_witness :
  _E_Kernel_MeanFunction (expectation 3 example_registry) example_gaussian
      (KernOther 0 0) example_points (MeanLinear example_A example_b) PyNone None
    = Ret (T3 (kernel_linear_mean_closed_form example_A example_b
                 [[[3]; [6]]; [[21]; [28]]]%Z [[3]; [7]]%Z 2 2 3 1))
  /\ has_shape3 2 1 3
       (kernel_linear_mean_closed_form example_A example_b
          [[[3]; [6]]; [[21]; [28]]]%Z [[3]; [7]]%Z 2 2 3 1).
Proof.
  apply (@Kernel_Linear_mean_composition Z _ (expectation 3 example_registry)
           example_gaussian example_A example_b (KernOther 0 0) example_points
           None [[[3]; [6]]; [[21]; [28]]]%Z [[3]; [7]]%Z 2 2 3 1);
    try lia; try reflexivity; shape_by_computation.
Defined.

Example Kernel_Linear_mean_example_value :
  kernel_linear_mean_closed_form example_A example_b
    [[[3]; [6]]; [[21]; [28]]]%Z [[3]; [7]]%Z 2 2 3 1
  = [[[48; 60; 72]]; [[182; 238; 294]]]%Z.
Proof. reflexivity. Qed.

Lemma Linear_mean_rule_shared_offset_witness :
  _E_Linear_Kernel (expectation 2 example_registry) example_gaussian
      (MeanLinear example_A [7]%Z) PyNone (KernOther 0 0) example_points None
    = Ret (T3 (linear_mean_shared_offset_form example_A 7%Z
                 [[[3]; [6]]; [[21]; [28]]]%Z [[3]; [7]]%Z 2 2 3 1))
  /\ has_shape3 2 3 1
       (linear_mean_shared_offset_form example_A 7%Z
          [[[3]; [6]]; [[21]; [28]]]%Z [[3]; [7]]%Z 2 2 3 1).
Proof.
  apply (@Linear_mean_rule_shared_offset Z _ (expectation 2 example_registry)
           example_gaussian example_A 7%Z (KernOther 0 0) example_points
           None [[[3]; [6]]; [[21]; [28]]]%Z [[3]; [7]]%Z 2 2 3 1);
    try lia; try reflexivity; shape_by_computation.
Defined.

Lemma DiagonalGaussian_Linear_mean_composition_witness :
  _E_DiagonalGaussian (expectation 2 example_registry) example_diagonal
      (MeanLinear example_A example_b) PyNone (KernOther 0 0) example_points None
    = Ret (T3 (linear_mean_closed_form example_A example_b
                 [[[3]; [6]]; [[21]; [28]]]%Z [[3]; [7]]%Z 2 2 3 1)).
Proof.
  apply (@DiagonalGaussian_Linear_mean_composition Z _
           (expectation 2 example_registry) example_mu [[5; 6]; [7; 8]]%Z
           example_A example_b (KernOther 0 0) example_points
           None [[[3]; [6]]; [[21]; [28]]]%Z [[3]; [7]]%Z 2 2 3 1);
    try lia; try reflexivity; shape_by_computation.
Defined.

Lemma Linear_rule_on_Identity_diverges_witness :
  expectation 5 example_registry_without_guard example_gaussian
    (Bare (MeanIdentity 2)) (Pair (KernOther 0 0) example_points) None
  = OutOfFuel.
Proof.
  apply (@Linear_rule_on_Identity_diverges Z _ example_registry_without_guard
           example_mu example_cov (KernOther 0 0) example_points None eq_refl 5 2).
Defined.

Lemma transpose_rules_delegate_forever_witness :
  expectation 7 misc_registry example_gaussian
    (Bare (MeanIdentity 2)) (Pair (KernLinear 0) example_points) None = OutOfFuel
  /\ expectation 7 misc_registry example_gaussian
       (Pair (KernLinear 0) example_points) (Bare (MeanIdentity 2)) None = OutOfFuel.
Proof.
  apply (@transpose_rules_delegate_forever Z _ misc_registry example_gaussian
           (MeanIdentity 2) (KernLinear 0) example_points eq_refl eq_refl 7 None).
Defined.

Lemma example_target_reads_values :
  forall s s' : store Z, (forall w, s w = s' w) -> example_target s = example_target s'.
Proof.
  intros s s' H. unfold example_target, constrained_value. cbn.
  now rewrite !H.
Qed.

Lemma target_log_prob_fn_forgets_old_values_witness :
  snd (target_log_prob_fn example_helper example_values example_store)
    = snd (target_log_prob_fn example_helper example_values example_store_other)
  /\ forall w,
       fst (target_log_prob_fn example_helper example_values example_store) w
       = fst (target_log_prob_fn example_helper example_values example_store_other) w.
Proof.
  apply (@target_log_prob_fn_forgets_old_values Z _ example_target
           [IsParameter example_param0; IsParameter example_param1]
           example_helper example_values example_store example_store_other
           eq_refl eq_refl example_target_reads_values).
  intros w Hw. unfold example_store_other.
  destruct (w =? 0) eqn:E; [|reflexivity].
  apply Nat.eqb_eq in E. subst w.
  exfalso. apply (Hw example_param0); [now left | reflexivity].
Defined.

Lemma target_log_prob_fn_repeatable_witness :
  snd (target_log_prob_fn example_helper example_values
         (fst (target_log_prob_fn example_helper example_values example_store)))
    = snd (target_log_prob_fn example_helper example_values example_store)
  /\ forall w,
       fst (target_log_prob_fn example_helper example_values
              (fst (target_log_prob_fn example_helper example_values example_store))) w
       = fst (target_log_prob_fn example_helper example_values example_store) w.
Proof.
  apply (@target_log_prob_fn_repeatable Z _ example_target
           [IsParameter example_param0; IsParameter example_param1]
           example_helper example_values example_store
           eq_refl eq_refl example_target_reads_values).
Defined.

Lemma target_log_prob_fn_zip_truncates_witness :
  (length (_parameters example_helper) <= length example_values ->
   forall surplus,
     target_log_prob_fn example_helper (example_values ++ surplus) example_store
       = target_log_prob_fn example_helper example_values example_store)
  /\ (NoDup (map unconstrained_variable (_parameters example_helper)) ->
      forall i p,
        length example_values <= i ->
        nth_error (_parameters example_helper) i = Some p ->
        fst (target_log_prob_fn example_helper example_values example_store)
          (unconstrained_variable p)
        = example_store (unconstrained_variable p)).
Proof.
  apply (@target_log_prob_fn_zip_truncates Z _ example_target
           [IsParameter example_param0; IsParameter example_param1]
           example_helper example_values example_store eq_refl).
Defined.

Example zip_truncation_example :
  fst (target_log_prob_fn example_helper [Value [2] [1; 2]%Z] example_store) 1
    = example_store 1
  /\ snd (target_log_prob_fn example_helper
            (example_values ++ [Value [] [100]%Z]) example_store) = 14%Z.
Proof. split; reflexivity. Qed.

Lemma target_log_prob_fn_without_transforms_witness :
  ((forall p, In p (_parameters example_helper_plain) -> transform p = None) ->
   snd (target_log_prob_fn example_helper_plain [Value [] [5]%Z] example_store)
     = example_target
         (fst (target_log_prob_fn example_helper_plain [Value [] [5]%Z]
                 example_store)))
  /\ ([IsParameter example_param1] = [] ->
      target_log_prob_fn example_helper_plain [Value [] [5]%Z] example_store
        = (example_store, example_target example_store)).
Proof.
  apply (@target_log_prob_fn_without_transforms Z _ example_target
           [IsParameter example_param1] example_helper_plain
           [Value [] [5]%Z] example_store eq_refl).
Defined.

Lemma Kernel_MeanFunction_is_adjoint_witness :
  _E_Kernel_MeanFunction (expectation 2 example_registry) example_gaussian
      (KernOther 0 0) example_points (MeanIdentity 2) PyNone None
    = Ret (T3 (swap_last_axes 2 2 1 [[[3]; [6]]; [[21]; [28]]]%Z))
  /\ has_shape3 2 1 2 (swap_last_axes 2 2 1 [[[3]; [6]]; [[21]; [28]]]%Z)
  /\ forall n m q, n < 2 -> m < 1 -> q < 2 ->
       get3 (swap_last_axes 2 2 1 [[[3]; [6]]; [[21]; [28]]]%Z) n m q
       = get3 [[[3]; [6]]; [[21]; [28]]]%Z n q m.
Proof.
  apply (proj1 (@Kernel_MeanFunction_is_adjoint Z _ (expectation 2 example_registry)
                  example_gaussian (KernOther 0 0) example_points (MeanIdentity 2)
                  PyNone None)
               [[[3]; [6]]; [[21]; [28]]]%Z 2 2 1);
    [shape_by_computation | lia | reflexivity].
Defined.

Example Kernel_MeanFunction_example_value :
  swap_last_axes 2 2 1 [[[3]; [6]]; [[21]; [28]]]%Z = [[[3; 6]]; [[21; 28]]]%Z.
Proof. reflexivity. Qed.

Lemma Linear_mean_rule_propagates_failures_witness :
  _E_Linear_Kernel (expectation 2 example_registry) example_gaussian
    (MeanLinear example_A example_b) PyNone (KernOther 1 0) example_points None
  = Raise NotImplementedError.
Proof.
  apply (proj1 (@Linear_mean_rule_propagates_failures Z _
                  (expectation 2 example_registry) example_gaussian
                  (MeanLinear example_A example_b) PyNone (KernOther 1 0)
                  example_points None NotImplementedError)).
  reflexivity.
Defined.

Example init_outcome_examples :
  __init__ example_target [IsParameter example_param0; IsParameter example_param1]
    = Ret example_helper
  /\ __init__ example_target [IsParameter example_param0; @NotParameter Z]
     = Raise ValueError
  /\ __init__ example_target [] <> Raise ValueError.
Proof. repeat split; try reflexivity. discriminate. Qed.

Example convert_to_constrained_values_examples :
  convert_to_constrained_values example_helper example_values
    = [Value [2] [2; 4]%Z; Value [] [5]%Z]
  /\ convert_to_constrained_values example_helper [Value [2] [1; 2]%Z]
     = [Value [2] [2; 4]%Z]
  /\ convert_to_constrained_values example_helper_plain [Value [] [5]%Z]
     = [Value [] [5]%Z].
Proof. repeat split; reflexivity. Qed.
